(** * HomeLib/image_utils.py: NumPy grids to VTK images and Slicer scene nodes

    A shallow embedding of the three functions of
    [Modules/Scripted/Home/HomeLib/image_utils.py]:

    - [create_image_data_from_numpy_array]
    - [create_volume_node_from_numpy_array]
    - [create_segmentation_node_from_numpy_array]

    The functions are glue over NumPy, VTK and 3D Slicer.  The embedding keeps
    the program text line by line and writes the objects it touches as
    explicit state: a store of element buffers (shared between NumPy arrays
    and VTK data arrays, so that a view and a deep copy differ), the MRML
    scene, and the host objects created outside the scene.  Python exceptions
    are the [Raised] outcome of a state-and-error monad.

    The library calls the program makes are modelled by what they do to that
    state: the modules [np], [vtk] and [slicer] below.  The two type tables
    of [vtk.util.numpy_support] are an interface ([vtk.NumpySupport]) the
    program is embedded over; [numpy_support] gives the tables VTK ships. *)

From Stdlib Require Import ZArith QArith.
From stdpp Require Import base option list strings gmap pretty.

Set Default Proof Using "Type".

(** ** Scalar types *)

(** The NumPy scalar types an array's [dtype] can name.  [bool_] and
    [float16] have no VTK counterpart; the complex types have one only by
    truncation to their real part. *)
Inductive numpy_type :=
  | bool_ | int8 | int16 | int32 | int64
  | uint8 | uint16 | uint32 | uint64
  | float16 | float32 | float64
  | complex64 | complex128.

Global Instance numpy_type_eq_dec : EqDecision numpy_type.
Proof. solve_decision. Defined.

(** [str(dtype)], used in error messages. *)
Definition numpy_type_str (t : numpy_type) : string :=
  match t with
  | bool_ => "bool" | int8 => "int8" | int16 => "int16" | int32 => "int32"
  | int64 => "int64" | uint8 => "uint8" | uint16 => "uint16"
  | uint32 => "uint32" | uint64 => "uint64" | float16 => "float16"
  | float32 => "float32" | float64 => "float64"
  | complex64 => "complex64" | complex128 => "complex128"
  end.

(** The scalar type codes of [vtkType.h]. *)
Inductive vtk_type :=
  | VTK_BIT | VTK_CHAR | VTK_SIGNED_CHAR | VTK_UNSIGNED_CHAR
  | VTK_SHORT | VTK_UNSIGNED_SHORT | VTK_INT | VTK_UNSIGNED_INT
  | VTK_LONG | VTK_UNSIGNED_LONG | VTK_LONG_LONG | VTK_UNSIGNED_LONG_LONG
  | VTK_FLOAT | VTK_DOUBLE | VTK_ID_TYPE.

Global Instance vtk_type_eq_dec : EqDecision vtk_type.
Proof. solve_decision. Defined.

(** ** Objects *)

(** Address of an element buffer in the store. *)
Definition loc := nat.

(** A NumPy array: its shape, dtype and C-contiguity flag, and the buffer its
    data pointer refers to.  The buffer lists the array's elements in the
    array's own row-major index order; an integer element is its value, an
    element of another dtype an opaque code that is only moved around. *)
Record ndarray := Ndarray {
  shape : list nat;
  dtype : numpy_type;
  c_contiguous : bool;
  data : loc;
}.

(** A [vtkDataArray]: element type, tuple layout and the storage it reads. *)
Record vtkDataArray := VtkDataArray {
  DataType : vtk_type;
  NumberOfComponents : nat;
  NumberOfTuples : nat;
  VoidPointer : option loc;
}.

Definition matrix := list (list Q).

Definition identity3 : matrix :=
  [[1%Q; 0%Q; 0%Q]; [0%Q; 1%Q; 0%Q]; [0%Q; 0%Q; 1%Q]].

(** A [vtkImageData], or a [vtkOrientedImageData] when [IsOriented]. *)
Record vtkImageData := VtkImageData {
  IsOriented : bool;
  Dimensions : list nat;
  Scalars : option vtkDataArray;
  Directions : matrix;
}.

(** Reference to a node of the scene; [None] is Python's [None]. *)
Definition node_ref := option nat.

Record vtkMRMLScalarVolumeNode := VolumeNode {
  vol_Name : string;
  Origin : list Q;
  Spacing : list Q;
  IJKToRASDirections : matrix;
  ImageData : option vtkImageData;
  vol_DisplayNode : node_ref;
}.

Record vtkSegment := Segment {
  seg_Name : string;
  BinaryLabelmap : vtkImageData;
}.

Record vtkMRMLSegmentationNode := SegmentationNode {
  sgn_Name : string;
  ReferenceImageGeometry : node_ref;
  sgn_DisplayNode : node_ref;
  Segments : list vtkSegment;
}.

(** The nodes this program puts into the scene. *)
Inductive mrml_node :=
  | ScalarVolume (v : vtkMRMLScalarVolumeNode)
  | Segmentation (s : vtkMRMLSegmentationNode)
  | ScalarVolumeDisplay
  | SegmentationDisplay.

(** A storage node handed to the caller; [sto_References] counts the
    references the host still holds on it. *)
Record vtkMRMLStorageNode := StorageNode {
  sto_Class : string;
  sto_References : nat;
}.

(** ** The world: buffers, scene, detached host objects *)

Record world := World {
  buffers : gmap loc (list Z);
  mrmlScene : list mrml_node;
  storage_nodes : list vtkMRMLStorageNode;
}.

Definition set_buffers (f : gmap loc (list Z) → gmap loc (list Z)) (w : world) : world :=
  {| buffers := f (buffers w); mrmlScene := mrmlScene w;
     storage_nodes := storage_nodes w |}.

Definition set_mrmlScene (f : list mrml_node → list mrml_node) (w : world) : world :=
  {| buffers := buffers w; mrmlScene := f (mrmlScene w);
     storage_nodes := storage_nodes w |}.

Definition set_storage_nodes
    (f : list vtkMRMLStorageNode → list vtkMRMLStorageNode) (w : world) : world :=
  {| buffers := buffers w; mrmlScene := mrmlScene w;
     storage_nodes := f (storage_nodes w) |}.

(** ** Exceptions and the program monad *)

Inductive exn :=
  | ValueError (msg : string)
  | TypeError (msg : string)
  | KeyError
  | AttributeError
  | AssertionError (condition : string).

Inductive outcome (A : Type) :=
  | Returned (a : A)
  | Raised (e : exn).
Global Arguments Returned {A} a.
Global Arguments Raised {A} e.

Definition M (A : Type) : Type := world → outcome A * world.

Global Instance M_ret : MRet M := λ A a w, (Returned a, w).

Global Instance M_bind : MBind M := λ A B f m w,
  match m w with
  | (Returned a, w') => f a w'
  | (Raised e, w') => (Raised e, w')
  end.

Global Instance M_throw : MThrow exn M := λ A e w, (Raised e, w).

(** A pure computation that may raise, run inside the program. *)
Definition lift {A} (o : outcome A) : M A := λ w, (o, w).

(** Python's [assert]: the [AssertionError] names the condition that was
    false, as the traceback of the raised error does. *)
Definition py_assert (condition : string) (b : bool) : M unit :=
  if b then mret tt else mthrow (AssertionError condition).

(** Allocation of a new buffer.  Buffers are never given back: the runtime's
    reclamation of garbage is not something the program observes. *)
Definition alloc (els : list Z) : M loc := λ w,
  let l := fresh (dom (buffers w)) in
  (Returned l, set_buffers (<[l := els]>) w).

(** What a data pointer reads. *)
Definition deref (w : world) (l : loc) : list Z := default [] (buffers w !! l).

Definition read (l : loc) : M (list Z) := λ w, (Returned (deref w l), w).

(** ** NumPy *)

Module np.

(** [array.size]: the product of the shape. *)
Definition size (a : ndarray) : nat := foldr Nat.mul 1 (shape a).

(** [len(array)]: the first dimension; a 0-d array has none. *)
Definition len (a : ndarray) : M nat :=
  match shape a with
  | n :: _ => mret n
  | [] => mthrow (TypeError "len() of unsized object")
  end.

(** [np.issubdtype] on two concrete scalar types: the concrete types are
    the leaves of NumPy's type hierarchy, so one is below another only
    when they are the same. *)
Definition issubdtype (t1 t2 : numpy_type) : bool := bool_decide (t1 = t2).

(** [np.ravel]: a view on the same buffer for a C-contiguous array, a
    new flat copy otherwise. *)
Definition ravel (a : ndarray) : M ndarray :=
  if c_contiguous a then
    mret (Ndarray [size a] (dtype a) true (data a))
  else
    els ← read (data a);
    l ← alloc els;
    mret (Ndarray [size a] (dtype a) true l).

(** Elementwise comparison with a scalar: 1 for [True], 0 for [False]. *)
Definition equal_elements (x : Z) (els : list Z) : list Z :=
  (λ e, if (e =? x)%Z then 1%Z else 0%Z) <$> els.

(** [array == scalar]: a new boolean array of the operand's shape, laid
    out in the operand's memory order. *)
Definition equal (a : ndarray) (x : Z) : M ndarray :=
  els ← read (data a);
  l ← alloc (equal_elements x els);
  mret (Ndarray (shape a) bool_ (c_contiguous a) l).

Definition wrap_unsigned (bits x : Z) : Z := (x mod 2 ^ bits)%Z.
Definition wrap_signed (bits x : Z) : Z :=
  ((x + 2 ^ (bits - 1)) mod 2 ^ bits - 2 ^ (bits - 1))%Z.

(** Conversion of one element to a target type.  Integer targets wrap
    around; the other targets keep the element's code. *)
Definition cast (t : numpy_type) (x : Z) : Z :=
  match t with
  | bool_ => if (x =? 0)%Z then 0%Z else 1%Z
  | int8 => wrap_signed 8 x | int16 => wrap_signed 16 x
  | int32 => wrap_signed 32 x | int64 => wrap_signed 64 x
  | uint8 => wrap_unsigned 8 x | uint16 => wrap_unsigned 16 x
  | uint32 => wrap_unsigned 32 x | uint64 => wrap_unsigned 64 x
  | _ => x
  end.

(** [array.astype(t)]: a new array of converted elements, in the
    operand's memory order. *)
Definition astype (a : ndarray) (t : numpy_type) : M ndarray :=
  els ← read (data a);
  l ← alloc (cast t <$> els);
  mret (Ndarray (shape a) t (c_contiguous a) l).

(** [array[...] = values]: the program's environment overwriting the
    elements of an array in place. *)
Definition assign (a : ndarray) (els : list Z) (w : world) : world :=
  set_buffers (<[data a := els]>) w.

End np.

(** A Python [dict] from class labels to names: insertion ordered, its keys
    pairwise distinct. *)
Definition dict := list (Z * string).

Definition keys (d : dict) : list Z := d.*1.

Definition dict_get (d : dict) (k : Z) : option string :=
  (λ found, found.2.2) <$> list_find (λ kv, kv.1 = k) d.

(** [d[k]]. *)
Definition getitem (d : dict) (k : Z) : M string :=
  match dict_get d k with
  | Some v => mret v
  | None => mthrow KeyError
  end.

(** ** VTK *)

Module vtk.

(** [vtk.util.numpy_support]: the two type tables the program consults.
    They belong to VTK, so the program is embedded over any pair of
    them; [numpy_support] below is the pair VTK ships. *)
Class NumpySupport := {
  get_vtk_array_type : numpy_type → outcome vtk_type;
  get_numpy_array_type : vtk_type → numpy_type;
}.

(** [vtkDataArray.CreateDataArray]: an empty array of the given type. *)
Definition CreateDataArray (t : vtk_type) : M vtkDataArray :=
  mret (VtkDataArray t 1 0 None).

Definition SetNumberOfComponents (self : vtkDataArray) (n : nat) : M vtkDataArray :=
  mret (VtkDataArray (DataType self) n (NumberOfTuples self) (VoidPointer self)).

(** [SetNumberOfTuples] allocates the array's own storage. *)
Definition SetNumberOfTuples (self : vtkDataArray) (n : nat) : M vtkDataArray :=
  l ← alloc (replicate (n * NumberOfComponents self) 0%Z);
  mret (VtkDataArray (DataType self) (NumberOfComponents self) n (Some l)).

(** [SetVoidArray(array, size, save)]: the array now reads the caller's
    buffer, [size] elements of it. *)
Definition SetVoidArray (self : vtkDataArray) (a : ndarray) (size save : nat)
    : M vtkDataArray :=
  mret (VtkDataArray (DataType self) (NumberOfComponents self)
          (size `div` NumberOfComponents self) (Some (data a))).

Definition NewInstance (self : vtkDataArray) : M vtkDataArray :=
  mret (VtkDataArray (DataType self) 1 0 None).

(** [DeepCopy]: new storage holding the source's elements. *)
Definition DeepCopy (self src : vtkDataArray) : M vtkDataArray :=
  els ← match VoidPointer src with
        | Some l => read l
        | None => mret []
        end;
  l ← alloc (take (NumberOfTuples src * NumberOfComponents src) els);
  mret (VtkDataArray (DataType self) (NumberOfComponents src)
          (NumberOfTuples src) (Some l)).

Definition new_vtkImageData : M vtkImageData :=
  mret (VtkImageData false [0; 0; 0] None identity3).

Definition SetDimensions (self : vtkImageData) (dims : list nat) : M vtkImageData :=
  mret (VtkImageData (IsOriented self) dims (Scalars self) (Directions self)).

(** [GetPointData().SetScalars]. *)
Definition SetScalars (self : vtkImageData) (arr : vtkDataArray) : M vtkImageData :=
  mret (VtkImageData (IsOriented self) (Dimensions self) (Some arr) (Directions self)).

(** The values an image shows: what its scalar array reads through its
    pointer in the current store. *)
Definition GetScalarValues (w : world) (img : vtkImageData) : list Z :=
  match Scalars img with
  | Some arr =>
      match VoidPointer arr with
      | Some l => take (NumberOfTuples arr * NumberOfComponents arr) (deref w l)
      | None => []
      end
  | None => []
  end.

End vtk.


(** The tables of [vtk/util/numpy_support.py], the module the program
    imports its two type functions from. *)
Module numpy_support.

(** [_np_vtk], the table inside [get_vtk_array_type], in its order, for the
    scalar types of [numpy_type]. *)
Definition _np_vtk : list (numpy_type * vtk_type) :=
  [ (uint8, VTK_UNSIGNED_CHAR); (uint16, VTK_UNSIGNED_SHORT);
    (uint32, VTK_UNSIGNED_INT); (uint64, VTK_UNSIGNED_LONG_LONG);
    (int8, VTK_CHAR); (int16, VTK_SHORT); (int32, VTK_INT);
    (int64, VTK_LONG_LONG); (float32, VTK_FLOAT); (float64, VTK_DOUBLE);
    (complex64, VTK_FLOAT); (complex128, VTK_DOUBLE) ].

(** The first entry whose key is the given type, is a supertype of it, or
    names its dtype (a type and its dtype are one thing here); a
    [TypeError] when there is none. *)
Definition get_vtk_array_type (numpy_array_type : numpy_type) : outcome vtk_type :=
  match list_find (λ kv, numpy_array_type = kv.1
                         ∨ np.issubdtype numpy_array_type kv.1 = true
                         ∨ numpy_array_type = kv.1) _np_vtk with
  | Some (_, (_, vtk_type)) => Returned vtk_type
  | None => Raised (TypeError ("Could not find a suitable VTK type for "
                               +:+ numpy_type_str numpy_array_type))
  end.

Section typemap.
(** The NumPy types of [long], [unsigned long] and [vtkIdType]: VTK takes
    them from the sizes of the platform it was built for. *)
Variables LONG_TYPE_CODE ULONG_TYPE_CODE ID_TYPE_CODE : numpy_type.

(** [get_vtk_to_numpy_typemap()[vtk_array_type]]. *)
Definition get_numpy_array_type (vtk_array_type : vtk_type) : numpy_type :=
  match vtk_array_type with
  | VTK_BIT => uint8
  | VTK_CHAR => int8
  | VTK_SIGNED_CHAR => int8
  | VTK_UNSIGNED_CHAR => uint8
  | VTK_SHORT => int16
  | VTK_UNSIGNED_SHORT => uint16
  | VTK_INT => int32
  | VTK_UNSIGNED_INT => uint32
  | VTK_LONG => LONG_TYPE_CODE
  | VTK_LONG_LONG => int64
  | VTK_UNSIGNED_LONG => ULONG_TYPE_CODE
  | VTK_UNSIGNED_LONG_LONG => uint64
  | VTK_ID_TYPE => ID_TYPE_CODE
  | VTK_FLOAT => float32
  | VTK_DOUBLE => float64
  end.

Definition tables : vtk.NumpySupport :=
  {| vtk.get_vtk_array_type := get_vtk_array_type;
     vtk.get_numpy_array_type := get_numpy_array_type |}.
End typemap.

(** The tables on a platform with 64-bit [long] and [vtkIdType]. *)
Definition lp64 : vtk.NumpySupport := tables int64 uint64 int64.

End numpy_support.

(** ** 3D Slicer *)

Module slicer.

Definition new_vtkOrientedImageData : M vtkImageData :=
  mret (VtkImageData true [0; 0; 0] None identity3).

Definition SetDirections (self : vtkImageData) (m : matrix) : M vtkImageData :=
  mret (VtkImageData (IsOriented self) (Dimensions self) (Scalars self) m).

Definition add_node (n : mrml_node) : M node_ref := λ w,
  (Returned (Some (length (mrmlScene w))), set_mrmlScene (λ s, s ++ [n]) w).

(** [slicer.mrmlScene.AddNewNodeByClass]: a node of the named class in its
    default state, appended to the scene; [None] for a class the scene does
    not know. *)
Definition AddNewNodeByClass (className name : string) : M node_ref :=
  if decide (className = "vtkMRMLScalarVolumeNode") then
    add_node (ScalarVolume
      (VolumeNode name [0%Q; 0%Q; 0%Q] [1%Q; 1%Q; 1%Q] identity3 None None))
  else if decide (className = "vtkMRMLSegmentationNode") then
    add_node (Segmentation (SegmentationNode name None None []))
  else if decide (className = "vtkMRMLScalarVolumeDisplayNode") then
    add_node ScalarVolumeDisplay
  else if decide (className = "vtkMRMLSegmentationDisplayNode") then
    add_node SegmentationDisplay
  else mret None.

Definition lookup_node (w : world) (self : node_ref) : option mrml_node :=
  i ← self; mrmlScene w !! i.

(** Method lookup on a reference: a volume-node method exists only on a
    volume node, and so on. *)
Definition get_volume (self : node_ref) : M vtkMRMLScalarVolumeNode := λ w,
  match lookup_node w self with
  | Some (ScalarVolume v) => (Returned v, w)
  | _ => (Raised AttributeError, w)
  end.

Definition get_segmentation (self : node_ref) : M vtkMRMLSegmentationNode := λ w,
  match lookup_node w self with
  | Some (Segmentation s) => (Returned s, w)
  | _ => (Raised AttributeError, w)
  end.

(** In-place update of the node a reference points to. *)
Definition put_node (self : node_ref) (n : mrml_node) : M unit := λ w,
  match self with
  | Some i => (Returned tt, set_mrmlScene (<[i := n]>) w)
  | None => (Raised AttributeError, w)
  end.

Definition SetOrigin (self : node_ref) (o : list Q) : M unit :=
  v ← get_volume self;
  put_node self (ScalarVolume
    (VolumeNode (vol_Name v) o (Spacing v) (IJKToRASDirections v)
       (ImageData v) (vol_DisplayNode v))).

Definition SetSpacing (self : node_ref) (s : list Q) : M unit :=
  v ← get_volume self;
  put_node self (ScalarVolume
    (VolumeNode (vol_Name v) (Origin v) s (IJKToRASDirections v)
       (ImageData v) (vol_DisplayNode v))).

Definition SetIJKToRASDirections (self : node_ref) (dirs : matrix) : M unit :=
  v ← get_volume self;
  put_node self (ScalarVolume
    (VolumeNode (vol_Name v) (Origin v) (Spacing v) dirs
       (ImageData v) (vol_DisplayNode v))).

Definition GetIJKToRASDirections (self : node_ref) : M matrix :=
  v ← get_volume self;
  mret (IJKToRASDirections v).

Definition SetAndObserveImageData (self : node_ref) (img : vtkImageData) : M unit :=
  v ← get_volume self;
  put_node self (ScalarVolume
    (VolumeNode (vol_Name v) (Origin v) (Spacing v) (IJKToRASDirections v)
       (Some img) (vol_DisplayNode v))).

(** [CreateDefaultDisplayNodes]: nothing when the node has a display node
    already; otherwise a display node of the node's kind is added to the
    scene and referenced. *)
Definition get_node (self : node_ref) : M mrml_node := λ w,
  match lookup_node w self with
  | Some n => (Returned n, w)
  | None => (Raised AttributeError, w)
  end.

Definition CreateDefaultDisplayNodes (self : node_ref) : M unit :=
  n ← get_node self;
  match n with
  | ScalarVolume v =>
      match vol_DisplayNode v with
      | Some _ => mret tt
      | None =>
          d ← AddNewNodeByClass "vtkMRMLScalarVolumeDisplayNode" "";
          put_node self (ScalarVolume
            (VolumeNode (vol_Name v) (Origin v) (Spacing v)
               (IJKToRASDirections v) (ImageData v) d))
      end
  | Segmentation s =>
      match sgn_DisplayNode s with
      | Some _ => mret tt
      | None =>
          d ← AddNewNodeByClass "vtkMRMLSegmentationDisplayNode" "";
          put_node self (Segmentation
            (SegmentationNode (sgn_Name s) (ReferenceImageGeometry s) d
               (Segments s)))
      end
  | _ => mthrow AttributeError
  end.

(** [CreateDefaultStorageNode]: a new archetype storage node, not in the
    scene, on which the host keeps one reference of its own. *)
Definition new_storage_node (n : vtkMRMLStorageNode) : M nat := λ w,
  (Returned (length (storage_nodes w)), set_storage_nodes (λ s, s ++ [n]) w).

Definition CreateDefaultStorageNode (self : node_ref) : M nat :=
  get_volume self;;
  new_storage_node (StorageNode "vtkMRMLVolumeArchetypeStorageNode" 1).

(** [UnRegister(None)] on a storage node: one reference less. *)
Definition UnRegister (self : nat) : M unit := λ w,
  match storage_nodes w !! self with
  | Some n =>
      (Returned tt,
       set_storage_nodes
         (<[self := StorageNode (sto_Class n) (pred (sto_References n))]>) w)
  | None => (Raised AttributeError, w)
  end.

(** [SetReferenceImageGeometryParameterFromVolumeNode]: records the volume
    whose geometry the segmentation follows; nothing happens when the
    argument is not a volume with image data. *)
Definition has_image_data (vol_node : node_ref) : M bool := λ w,
  match lookup_node w vol_node with
  | Some (ScalarVolume v) => (Returned (bool_decide (is_Some (ImageData v))), w)
  | _ => (Returned false, w)
  end.

Definition SetReferenceImageGeometryParameterFromVolumeNode
    (self vol_node : node_ref) : M unit :=
  s ← get_segmentation self;
  ok ← has_image_data vol_node;
  if ok : bool then
    put_node self (Segmentation
      (SegmentationNode (sgn_Name s) vol_node (sgn_DisplayNode s) (Segments s)))
  else mret tt.

(** [AddSegmentFromBinaryLabelmapRepresentation]: a new segment of the given
    name, its labelmap the given image, after the segments there are. *)
Definition AddSegmentFromBinaryLabelmapRepresentation
    (self : node_ref) (img : vtkImageData) (name : string) : M unit :=
  s ← get_segmentation self;
  put_node self (Segmentation
    (SegmentationNode (sgn_Name s) (ReferenceImageGeometry s)
       (sgn_DisplayNode s) (Segments s ++ [Segment name img]))).

End slicer.

(** Python's [for x in xs: body]. *)
Fixpoint for_each {A} (xs : list A) (body : A → M unit) : M unit :=
  match xs with
  | [] => mret tt
  | x :: xs' => body x ;; for_each xs' body
  end.

(** ** The program *)

(** The two assertions of the conversion, as their tracebacks show them. *)
Definition contiguity_condition : string := "array.flags.c_contiguous".
Definition roundtrip_condition : string :=
  "np.issubdtype(array.dtype, arr_dtype) or array.dtype == np.dtype(arr_dtype)".

Section image_utils.
Context `{vtk.NumpySupport}.

(** [create_image_data_from_numpy_array(array, oriented, copy=True)];
    [copy = None] is the call that leaves the argument out. *)
Definition create_image_data_from_numpy_array
    (array : ndarray) (oriented : bool) (copy : option bool) : M vtkImageData :=
  let copy := default true copy in
  if decide (length (shape array) ≠ 2) then
    mthrow (ValueError ("2D array was expected; got "
                        +:+ pretty (length (shape array)) +:+ "D array"))
  else
  vtk_type ← lift (vtk.get_vtk_array_type (dtype array));
  py_assert contiguity_condition (c_contiguous array);;
  vtk_array ← vtk.CreateDataArray vtk_type;
  vtk_array ← vtk.SetNumberOfComponents vtk_array 1;
  vtk_array ← vtk.SetNumberOfTuples vtk_array (np.size array);
  let arr_dtype := vtk.get_numpy_array_type vtk_type in
  py_assert roundtrip_condition
    (np.issubdtype (dtype array) arr_dtype
     || bool_decide (dtype array = arr_dtype));;
  array_flat ← np.ravel array;
  n ← np.len array_flat;
  vtk_array ← vtk.SetVoidArray vtk_array array_flat n 1;
  vtk_array ← (if copy then
                 copy ← vtk.NewInstance vtk_array;
                 vtk.DeepCopy copy vtk_array
               else mret vtk_array);
  imageData ← (if oriented then slicer.new_vtkOrientedImageData
               else vtk.new_vtkImageData);
  imageData ← vtk.SetDimensions imageData
                [shape array !!! 0; shape array !!! 1; 1];
  imageData ← vtk.SetScalars imageData vtk_array;
  mret imageData.

(** [create_volume_node_from_numpy_array(array, ijk_to_ras_directions, node_name)]. *)
Definition create_volume_node_from_numpy_array
    (array : ndarray) (ijk_to_ras_directions : matrix) (node_name : string)
    : M node_ref :=
  imageData ← create_image_data_from_numpy_array array false None;
  volumeNode ← slicer.AddNewNodeByClass "vtkMRMLScalarVolumeNode" node_name;
  slicer.SetOrigin volumeNode [0%Q; 0%Q; 0%Q];;
  slicer.SetSpacing volumeNode [1%Q; 1%Q; 1%Q];;
  slicer.SetIJKToRASDirections volumeNode ijk_to_ras_directions;;
  slicer.SetAndObserveImageData volumeNode imageData;;
  slicer.CreateDefaultDisplayNodes volumeNode;;
  defaultStorageNode ← slicer.CreateDefaultStorageNode volumeNode;
  slicer.UnRegister defaultStorageNode;;
  mret volumeNode.

(** [create_segmentation_node_from_numpy_array(array, class_names, node_name, vol_node)].
    The 3x3 array the program hands to [GetIJKToRASDirections] to be filled
    is the matrix that call returns here. *)
Definition create_segmentation_node_from_numpy_array
    (array : ndarray) (class_names : dict) (node_name : string)
    (vol_node : node_ref) : M node_ref :=
  ijk_to_ras_directions ← slicer.GetIJKToRASDirections vol_node;
  segNode ← slicer.AddNewNodeByClass "vtkMRMLSegmentationNode" node_name;
  slicer.SetReferenceImageGeometryParameterFromVolumeNode segNode vol_node;;
  slicer.CreateDefaultDisplayNodes segNode;;
  for_each (keys class_names) (λ class_label,
    is_label ← np.equal array class_label;
    binary_labelmap_array ← np.astype is_label int8;
    orientedImageData ←
      create_image_data_from_numpy_array binary_labelmap_array true None;
    orientedImageData ←
      slicer.SetDirections orientedImageData ijk_to_ras_directions;
    name ← getitem class_names class_label;
    slicer.AddSegmentFromBinaryLabelmapRepresentation
      segNode orientedImageData name);;
  mret segNode.

End image_utils.

(** ** Vocabulary of the properties *)

(** A dtype the conversion supports: VTK has a type code for it, and that
    code names the dtype back. *)
Definition supported_dtype `{vtk.NumpySupport} (d : numpy_type) : Prop :=
  ∃ t, vtk.get_vtk_array_type d = Returned t
       ∧ np.issubdtype d (vtk.get_numpy_array_type t)
         || bool_decide (d = vtk.get_numpy_array_type t) = true.

(** The array's buffer is there and holds one element per index. *)
Definition live (w : world) (a : ndarray) : Prop :=
  data a ∈ dom (buffers w) ∧ length (deref w (data a)) = np.size a.

(** [array[i, j]] of a C-contiguous 2-D array. *)
Definition item (w : world) (a : ndarray) (i j : nat) : option Z :=
  match shape a with
  | [rows; cols] =>
      if (i <? rows) && (j <? cols) then deref w (data a) !! (i * cols + j)
      else None
  | _ => None
  end.

(** The distinct label values of a grid, in order of first occurrence. *)
Definition distinct_labels (w : world) (a : ndarray) : list Z :=
  remove_dups (deref w (data a)).

(** An image shows [vals]: its scalars are one-component tuples read from a
    buffer that holds exactly [vals]. *)
Definition shows (b : gmap loc (list Z)) (img : vtkImageData) (vals : list Z) : Prop :=
  ∃ t l, Scalars img = Some (VtkDataArray t 1 (length vals) (Some l))
         ∧ b !! l = Some vals.

(** The segment the loop adds for the key [k]: named as the mapping says,
    an oriented image of the grid's dimensions and the volume's directions
    that shows the comparison of the grid with [k]. *)
Definition segment_for (class_names : dict) (m : matrix) (rows cols : nat)
    (b : gmap loc (list Z)) (els : list Z) (seg : vtkSegment) (k : Z) : Prop :=
  dict_get class_names k = Some (seg_Name seg)
  ∧ IsOriented (BinaryLabelmap seg) = true
  ∧ Dimensions (BinaryLabelmap seg) = [rows; cols; 1]
  ∧ Directions (BinaryLabelmap seg) = m
  ∧ shows b (BinaryLabelmap seg) (np.equal_elements k els).

(** The segments of the node a reference points to. *)
Definition segments_of (w : world) (ref : node_ref) : list vtkSegment :=
  match slicer.lookup_node w ref with
  | Some (Segmentation sg) => Segments sg
  | _ => []
  end.

(** ** Example data *)

Module example.

(** A store with one buffer of six elements, and an empty scene. *)
Definition w0 : world := World {[ 0 := [0; 1; 1; 2; 0; 5]%Z ]} [] [].

(** A 2x3 grid of labels over that buffer. *)
Definition grid : ndarray := Ndarray [2; 3] int32 true 0.

(** Arrays the conversion turns down: a flat one, one that is not
    C-contiguous, and two of dtypes VTK does not take. *)
Definition flat : ndarray := Ndarray [6] int32 true 0.
Definition transposed : ndarray := Ndarray [3; 2] int32 false 0.
Definition complex_grid : ndarray := Ndarray [2; 3] complex64 true 0.
Definition bool_grid : ndarray := Ndarray [2; 3] bool_ true 0.

(** A 1x2 grid holding the labels 0 and 1. *)
Definition labels : ndarray := Ndarray [1; 2] int32 true 0.

(** The world after that grid has been made a volume node, on a platform
    with 64-bit [long] and [vtkIdType]: the scene holds the volume node at
    index 0 and its display node at index 1. *)
Definition w1 : world :=
  Eval vm_compute in
    (create_volume_node_from_numpy_array (H := numpy_support.lp64)
       labels identity3 "vol" (World {[ 0 := [0; 1]%Z ]} [] [])).2.

Definition volume : vtkMRMLScalarVolumeNode :=
  Eval vm_compute in
    match mrmlScene w1 with
    | ScalarVolume v :: _ => v
    | _ => VolumeNode "" [] [] [] None None
    end.

(** A mapping that names a label the grid does not hold, and one that
    names exactly the grid's labels. *)
Definition names : dict := [(1%Z, "lung"); (7%Z, "lesion")].
Definition all_names : dict := [(1%Z, "lung"); (0%Z, "background")].

End example.

(** ** Running programs *)

Lemma run_bind {A B} (m : M A) (f : A → M B) (w : world) :
  (m ≫= f) w = match m w with
               | (Returned a, w') => f a w'
               | (Raised e, w') => (Raised e, w')
               end.
Proof. reflexivity. Qed.

Lemma run_bind_returned {A B} (m : M A) (f : A → M B) w a w' :
  m w = (Returned a, w') → (m ≫= f) w = f a w'.
Proof. intros Hm. rewrite run_bind, Hm. reflexivity. Qed.

Lemma run_bind_raised {A B} (m : M A) (f : A → M B) w e w' :
  m w = (Raised e, w') → (m ≫= f) w = (Raised e, w').
Proof. intros Hm. rewrite run_bind, Hm. reflexivity. Qed.

(** ** The buffer store *)

Lemma buffers_alloc_subseteq els w :
  buffers w ⊆ <[fresh (dom (buffers w)) := els]> (buffers w).
Proof.
  apply insert_subseteq, not_elem_of_dom, is_fresh.
Qed.

Lemma deref_subseteq w w' l :
  buffers w ⊆ buffers w' → l ∈ dom (buffers w) → deref w' l = deref w l.
Proof.
  intros Hsub [els Hl]%elem_of_dom. unfold deref.
  rewrite Hl. erewrite lookup_weaken; eauto.
Qed.

Lemma size_2d a rows cols : shape a = [rows; cols] → np.size a = rows * cols.
Proof. unfold np.size. intros ->. simpl. lia. Qed.

(** ** Grid-to-image conversion *)

Section image_data.
Context `{vtk.NumpySupport}.

(** Unfolds the program's primitives, so that a run is a term over the
    store. *)
Ltac run_program :=
  cbv beta iota zeta delta
    [mbind M_bind mret M_ret mthrow M_throw lift py_assert alloc read
     vtk.CreateDataArray vtk.SetNumberOfComponents vtk.SetNumberOfTuples
     vtk.SetVoidArray vtk.NewInstance vtk.DeepCopy vtk.new_vtkImageData
     vtk.SetDimensions vtk.SetScalars slicer.new_vtkOrientedImageData
     slicer.SetDirections np.ravel np.len np.equal np.astype
     DataType NumberOfComponents NumberOfTuples VoidPointer
     IsOriented Dimensions Scalars Directions
     shape dtype c_contiguous data].

Lemma create_image_data_returns a oriented copy w rows cols :
  shape a = [rows; cols] →
  supported_dtype (dtype a) →
  c_contiguous a = true →
  ∃ t l w',
    create_image_data_from_numpy_array a oriented copy w
    = (Returned (VtkImageData oriented [rows; cols; 1]
                   (Some (VtkDataArray t 1 (rows * cols) (Some l))) identity3), w')
    ∧ vtk.get_vtk_array_type (dtype a) = Returned t
    ∧ mrmlScene w' = mrmlScene w
    ∧ storage_nodes w' = storage_nodes w
    ∧ buffers w ⊆ buffers w'
    ∧ (if default true copy
       then (l ∉ dom (buffers w))
            ∧ (data a ∈ dom (buffers w) →
               buffers w' !! l = Some (take (rows * cols) (deref w (data a))))
       else l = data a).
Proof.
  intros Hshape (t & Ht & Hrt) Hc.
  pose proof (size_2d a rows cols Hshape) as Hsize.
  unfold create_image_data_from_numpy_array.
  destruct a as [sh d c la]; simpl in Hshape, Ht, Hrt, Hc; subst sh c.
  cbn [shape length].
  destruct (decide _) as [Hd|_]; [done|].
  run_program.
  rewrite Ht. cbv beta iota. rewrite Hrt. cbv beta iota.
  rewrite Hsize, Nat.div_1_r, !Nat.mul_1_r.
  set (l1 := fresh (dom (buffers w))).
  set (w1 := set_buffers _ w).
  assert (Hsub1 : buffers w ⊆ buffers w1) by apply buffers_alloc_subseteq.
  destruct (default true copy), oriented; cbn;
    (eexists t, _, _; split; [reflexivity|]; split_and!; try done).
  all: try (etrans; [exact Hsub1|]; apply buffers_alloc_subseteq).
  all: try (intros Hin; apply (is_fresh (dom (buffers w1)));
            revert Hin; apply subseteq_dom, Hsub1).
  all: intros Hla; cbn; rewrite lookup_insert_eq;
       by rewrite (deref_subseteq w w1 la Hsub1 Hla).
Qed.

Lemma create_image_data_rank_error a oriented copy w :
  length (shape a) ≠ 2 →
  create_image_data_from_numpy_array a oriented copy w
  = (Raised (ValueError ("2D array was expected; got "
                         +:+ pretty (length (shape a)) +:+ "D array")), w).
Proof.
  intros Hrank. unfold create_image_data_from_numpy_array.
  destruct (decide _) as [_|Hd]; [reflexivity|done].
Qed.

Lemma create_image_data_type_error a oriented copy w e :
  length (shape a) = 2 →
  vtk.get_vtk_array_type (dtype a) = Raised e →
  create_image_data_from_numpy_array a oriented copy w = (Raised e, w).
Proof.
  intros Hrank He. unfold create_image_data_from_numpy_array.
  destruct (decide _) as [Hd|_]; [done|].
  destruct a as [sh d c la]; simpl in He.
  run_program. rewrite He. reflexivity.
Qed.

Lemma create_image_data_contiguity_error a oriented copy w t :
  length (shape a) = 2 →
  vtk.get_vtk_array_type (dtype a) = Returned t →
  c_contiguous a = false →
  create_image_data_from_numpy_array a oriented copy w
  = (Raised (AssertionError contiguity_condition), w).
Proof.
  intros Hrank Ht Hc. unfold create_image_data_from_numpy_array.
  destruct (decide _) as [Hd|_]; [done|].
  destruct a as [sh d c la]; simpl in Ht, Hc; subst c.
  run_program. rewrite Ht. reflexivity.
Qed.

Lemma create_image_data_roundtrip_error a oriented copy w t :
  length (shape a) = 2 →
  vtk.get_vtk_array_type (dtype a) = Returned t →
  c_contiguous a = true →
  np.issubdtype (dtype a) (vtk.get_numpy_array_type t)
  || bool_decide (dtype a = vtk.get_numpy_array_type t) = false →
  ∃ w', create_image_data_from_numpy_array a oriented copy w
        = (Raised (AssertionError roundtrip_condition), w')
        ∧ mrmlScene w' = mrmlScene w ∧ storage_nodes w' = storage_nodes w.
Proof.
  intros Hrank Ht Hc Hrt. unfold create_image_data_from_numpy_array.
  destruct (decide _) as [Hd|_]; [done|].
  destruct a as [sh d c la]; simpl in Ht, Hc, Hrt; subst c.
  run_program. rewrite Ht. cbv beta iota. rewrite Hrt.
  eexists. split; [reflexivity|done].
Qed.

(** Whatever the conversion does, it leaves the scene and the host's
    detached objects alone. *)
Lemma create_image_data_scene a oriented copy w r w' :
  create_image_data_from_numpy_array a oriented copy w = (r, w') →
  mrmlScene w' = mrmlScene w ∧ storage_nodes w' = storage_nodes w.
Proof.
  intros Hrun.
  destruct (decide (length (shape a) = 2)) as [Hrank|Hrank]; last first.
  { rewrite create_image_data_rank_error in Hrun by done. by simplify_eq. }
  destruct (vtk.get_vtk_array_type (dtype a)) as [t|e] eqn:Ht; last first.
  { rewrite (create_image_data_type_error _ _ _ _ e) in Hrun by done.
    by simplify_eq. }
  destruct (c_contiguous a) eqn:Hc; last first.
  { rewrite (create_image_data_contiguity_error _ _ _ _ t) in Hrun by done.
    by simplify_eq. }
  destruct (np.issubdtype (dtype a) (vtk.get_numpy_array_type t)
            || bool_decide (dtype a = vtk.get_numpy_array_type t)) eqn:Hrt.
  - destruct (shape a) as [|rows [|cols [|]]] eqn:Hshape; try done.
    destruct (create_image_data_returns a oriented copy w rows cols)
      as (t' & l & w'' & Hrun' & _ & Hs & Hst & _); [done|by exists t|done|].
    rewrite Hrun' in Hrun. by simplify_eq.
  - destruct (create_image_data_roundtrip_error a oriented copy w t)
      as (w'' & Hrun' & Hs & Hst); [done..|].
    rewrite Hrun' in Hrun. by simplify_eq.
Qed.

(** ** Scene nodes *)

Lemma lookup_node_middle b s n t st :
  slicer.lookup_node (World b (s ++ n :: t) st) (Some (length s)) = Some n.
Proof. cbn. apply list_lookup_middle. reflexivity. Qed.

Lemma insert_node_middle (s : list mrml_node) n n' t :
  <[length s := n']> (s ++ n :: t) = s ++ n' :: t.
Proof.
  rewrite <- (Nat.add_0_r (length s)). by rewrite insert_app_r.
Qed.

Lemma AddNewNodeByClass_volume name :
  slicer.AddNewNodeByClass "vtkMRMLScalarVolumeNode" name
  = slicer.add_node (ScalarVolume
      (VolumeNode name [0%Q; 0%Q; 0%Q] [1%Q; 1%Q; 1%Q] identity3 None None)).
Proof. reflexivity. Qed.

Lemma AddNewNodeByClass_segmentation name :
  slicer.AddNewNodeByClass "vtkMRMLSegmentationNode" name
  = slicer.add_node (Segmentation (SegmentationNode name None None [])).
Proof. reflexivity. Qed.

Lemma AddNewNodeByClass_volume_display name :
  slicer.AddNewNodeByClass "vtkMRMLScalarVolumeDisplayNode" name
  = slicer.add_node ScalarVolumeDisplay.
Proof. reflexivity. Qed.

Lemma AddNewNodeByClass_segmentation_display name :
  slicer.AddNewNodeByClass "vtkMRMLSegmentationDisplayNode" name
  = slicer.add_node SegmentationDisplay.
Proof. reflexivity. Qed.

Lemma lookup_storage_node_last (st : list vtkMRMLStorageNode) n :
  (st ++ [n]) !! length st = Some n.
Proof. by apply list_lookup_middle. Qed.

Lemma insert_storage_node_last (st : list vtkMRMLStorageNode) n n' :
  <[length st := n']> (st ++ [n]) = st ++ [n'].
Proof. rewrite <- (Nat.add_0_r (length st)). by rewrite insert_app_r. Qed.

Ltac run_scene :=
  cbv beta iota zeta delta
    [mbind M_bind mret M_ret mthrow M_throw
     slicer.SetOrigin slicer.SetSpacing slicer.SetIJKToRASDirections
     slicer.SetAndObserveImageData slicer.GetIJKToRASDirections
     slicer.CreateDefaultDisplayNodes slicer.CreateDefaultStorageNode
     slicer.UnRegister slicer.new_storage_node slicer.add_node
     slicer.SetReferenceImageGeometryParameterFromVolumeNode
     slicer.has_image_data
     slicer.AddSegmentFromBinaryLabelmapRepresentation
     slicer.get_volume slicer.get_segmentation slicer.get_node slicer.put_node
     set_mrmlScene set_storage_nodes buffers mrmlScene storage_nodes
     vol_Name Origin Spacing IJKToRASDirections ImageData vol_DisplayNode
     sgn_Name ReferenceImageGeometry sgn_DisplayNode Segments];
  repeat first
    [ rewrite lookup_node_middle
    | rewrite insert_node_middle ];
  cbv beta iota.

Lemma create_volume_node_returns a dirs name w rows cols :
  shape a = [rows; cols] →
  supported_dtype (dtype a) →
  c_contiguous a = true →
  ∃ img w1,
    create_image_data_from_numpy_array a false None w = (Returned img, w1)
    ∧ create_volume_node_from_numpy_array a dirs name w
      = (Returned (Some (length (mrmlScene w))),
         World (buffers w1)
           (mrmlScene w
            ++ [ScalarVolume
                  (VolumeNode name [0%Q; 0%Q; 0%Q] [1%Q; 1%Q; 1%Q] dirs
                     (Some img) (Some (S (length (mrmlScene w)))));
                ScalarVolumeDisplay])
           (storage_nodes w
            ++ [StorageNode "vtkMRMLVolumeArchetypeStorageNode" 0])).
Proof.
  intros Hshape Hsup Hc.
  destruct (create_image_data_returns a false None w rows cols)
    as (t & l & w1 & Hrun & _ & Hs & Hst & _); [done..|].
  destruct w as [b s st]; cbn [mrmlScene storage_nodes] in *.
  eexists _, w1. split; [exact Hrun|].
  unfold create_volume_node_from_numpy_array.
  rewrite (run_bind_returned _ _ _ _ _ Hrun).
  destruct w1 as [b1 s1 st1]. simpl in Hs, Hst. subst s1 st1.
  rewrite AddNewNodeByClass_volume.
  run_scene. rewrite AddNewNodeByClass_volume_display. run_scene.
  rewrite <- app_assoc. cbn [app]. run_scene.
  rewrite lookup_storage_node_last, insert_storage_node_last.
  rewrite length_app, Nat.add_1_r. reflexivity.
Qed.
(** ** Segments *)

Lemma shows_weaken b b' img vals :
  b ⊆ b' → shows b img vals → shows b' img vals.
Proof.
  intros Hsub (t & l & Hs & Hl). exists t, l. split; [done|].
  by eapply lookup_weaken.
Qed.

Lemma shows_values w img vals :
  shows (buffers w) img vals → vtk.GetScalarValues w img = vals.
Proof.
  intros (t & l & Hs & Hl). unfold vtk.GetScalarValues, deref.
  rewrite Hs. cbn. rewrite Hl. cbn.
  rewrite Nat.mul_1_r. apply firstn_all.
Qed.

Lemma cast_int8_equal x els :
  np.cast int8 <$> np.equal_elements x els = np.equal_elements x els.
Proof.
  unfold np.equal_elements. rewrite <- list_fmap_compose.
  apply list_fmap_ext. intros _ e _. cbn. by destruct (e =? x)%Z.
Qed.

Lemma length_equal_elements x els :
  length (np.equal_elements x els) = length els.
Proof. apply length_fmap. Qed.

Section segments.
Variables (a : ndarray) (class_names : dict) (m : matrix) (rows cols : nat).
Variables (s t : list mrml_node) (st : list vtkMRMLStorageNode).
Hypothesis Hshape : shape a = [rows; cols].
Hypothesis Hc : c_contiguous a = true.
Hypothesis Hint8 : supported_dtype int8.

Let body : Z → M unit := λ class_label,
  is_label ← np.equal a class_label;
  binary_labelmap_array ← np.astype is_label int8;
  orientedImageData ←
    create_image_data_from_numpy_array binary_labelmap_array true None;
  orientedImageData ← slicer.SetDirections orientedImageData m;
  name ← getitem class_names class_label;
  slicer.AddSegmentFromBinaryLabelmapRepresentation
    (Some (length s)) orientedImageData name.

Lemma body_run k name b sg els :
  b !! data a = Some els →
  length els = rows * cols →
  dict_get class_names k = Some name →
  ∃ b' img,
    body k (World b (s ++ Segmentation sg :: t) st)
    = (Returned tt,
       World b'
         (s ++ Segmentation
                 (SegmentationNode (sgn_Name sg) (ReferenceImageGeometry sg)
                    (sgn_DisplayNode sg) (Segments sg ++ [Segment name img]))
            :: t) st)
    ∧ b ⊆ b'
    ∧ IsOriented img = true
    ∧ Dimensions img = [rows; cols; 1]
    ∧ Directions img = m
    ∧ shows b' img (np.equal_elements k els).
Proof using Hshape Hc Hint8.
  intros Hels Hlen Hname. unfold body.
  destruct a as [sh d c la]; simpl in Hshape, Hc, Hels; subst sh c.
  run_program. unfold deref. cbn [buffers set_buffers mrmlScene storage_nodes].
  rewrite Hels. cbn [default]. rewrite lookup_insert_eq. cbn [default id].
  rewrite cast_int8_equal.
  set (l1 := fresh (dom b)). set (b1 := <[l1 := _]> b).
  set (l2 := fresh (dom b1)).
  set (w2 := set_buffers _ (set_buffers _ _)).
  assert (Hsub1 : b ⊆ b1) by (apply insert_subseteq, not_elem_of_dom, is_fresh).
  assert (Hsub2 : b1 ⊆ buffers w2)
    by (apply insert_subseteq, not_elem_of_dom, is_fresh).
  assert (Hl2 : buffers w2 !! l2 = Some (np.equal_elements k els))
    by apply lookup_insert_eq.
  destruct (create_image_data_returns (Ndarray [rows; cols] int8 true l2)
              true None w2 rows cols)
    as (ty & l & w3 & Hrun & _ & Hs & Hst & Hsub3 & _ & Hval); [done..|].
  rewrite Hrun. unfold getitem. rewrite Hname.
  destruct w3 as [b3 s3 st3]. cbn in Hs, Hst, Hsub3, Hval. subst s3 st3.
  run_scene.
  eexists b3, (VtkImageData true [rows; cols; 1] _ m).
  split; [reflexivity|]. split_and!; try done.
  - etrans; [exact Hsub1|]. etrans; [exact Hsub2|]. exact Hsub3.
  - exists ty, l. rewrite length_equal_elements, Hlen. split; [done|].
    rewrite Hval by (apply elem_of_dom; eauto).
    unfold deref. rewrite Hl2. cbn.
    by rewrite firstn_all2 by (rewrite length_equal_elements; lia).
Qed.
Lemma segment_for_weaken b b' els seg k :
  b ⊆ b' →
  segment_for class_names m rows cols b els seg k →
  segment_for class_names m rows cols b' els seg k.
Proof.
  intros Hsub (?&?&?&?&?). split_and!; try done. by eapply shows_weaken.
Qed.

Lemma for_each_run ks : ∀ b sg els,
  b !! data a = Some els →
  length els = rows * cols →
  Forall (λ k, is_Some (dict_get class_names k)) ks →
  ∃ b' segs,
    for_each ks body (World b (s ++ Segmentation sg :: t) st)
    = (Returned tt,
       World b'
         (s ++ Segmentation
                 (SegmentationNode (sgn_Name sg) (ReferenceImageGeometry sg)
                    (sgn_DisplayNode sg) (Segments sg ++ segs))
            :: t) st)
    ∧ b ⊆ b'
    ∧ Forall2 (segment_for class_names m rows cols b' els) segs ks.
Proof using Hshape Hc Hint8.
  induction ks as [|k ks IH]; intros b sg els Hels Hlen Hks.
  - exists b, []. rewrite app_nil_r. destruct sg. by split_and!.
  - apply Forall_cons in Hks as [[name Hname] Hks].
    destruct (body_run k name b sg els Hels Hlen Hname)
      as (b1 & img & Hrun & Hsub1 & Ho & Hd & Hm & Hshows).
    destruct (IH b1
                (SegmentationNode (sgn_Name sg) (ReferenceImageGeometry sg)
                   (sgn_DisplayNode sg) (Segments sg ++ [Segment name img]))
                els)
      as (b' & segs & Hrun' & Hsub' & Hsegs);
      [by eapply lookup_weaken|done|done|].
    exists b', (Segment name img :: segs).
    split_and!.
    + cbn [for_each]. rewrite (run_bind_returned _ _ _ _ _ Hrun).
      rewrite Hrun'. cbn. by rewrite <- app_assoc.
    + by etrans.
    + constructor; [|done].
      apply (segment_for_weaken b1); [done|]. by split_and!.
Qed.

End segments.

Lemma dict_get_is_Some (d : dict) k : k ∈ keys d → is_Some (dict_get d k).
Proof.
  intros [[k' v] [-> Hin]]%list_elem_of_fmap. unfold dict_get.
  destruct (list_find _ d) as [r|] eqn:Hfind; [by eexists|].
  apply list_find_None in Hfind. rewrite Forall_forall in Hfind.
  by destruct (Hfind (k', v) Hin).
Qed.

Lemma GetIJKToRASDirections_run w r v :
  slicer.lookup_node w r = Some (ScalarVolume v) →
  slicer.GetIJKToRASDirections r w = (Returned (IJKToRASDirections v), w).
Proof.
  intros Hr. unfold slicer.GetIJKToRASDirections, slicer.get_volume.
  rewrite run_bind, Hr. reflexivity.
Qed.

Lemma add_node_run n b s st :
  slicer.add_node n (World b s st)
  = (Returned (Some (length s)), World b (s ++ [n]) st).
Proof. reflexivity. Qed.

Lemma SetReferenceImageGeometry_run b s sg t st i v :
  s !! i = Some (ScalarVolume v) →
  slicer.SetReferenceImageGeometryParameterFromVolumeNode
    (Some (length s)) (Some i) (World b (s ++ Segmentation sg :: t) st)
  = (Returned tt,
     World b
       (s ++ Segmentation
               (SegmentationNode (sgn_Name sg)
                  (if ImageData v is Some _ then Some i
                   else ReferenceImageGeometry sg)
                  (sgn_DisplayNode sg) (Segments sg))
          :: t) st).
Proof.
  intros Hi.
  assert (Hi' : slicer.lookup_node (World b (s ++ Segmentation sg :: t) st)
                  (Some i) = Some (ScalarVolume v)).
  { cbn. by apply lookup_app_l_Some. }
  unfold slicer.SetReferenceImageGeometryParameterFromVolumeNode.
  unfold slicer.get_segmentation, slicer.has_image_data.
  rewrite run_bind, lookup_node_middle, run_bind, Hi'.
  destruct (ImageData v) as [img|]; cbn; unfold set_mrmlScene; cbn.
  - by rewrite insert_node_middle.
  - by destruct sg.
Qed.

Lemma CreateDefaultDisplayNodes_segmentation_run b s sg st :
  sgn_DisplayNode sg = None →
  slicer.CreateDefaultDisplayNodes (Some (length s))
    (World b (s ++ [Segmentation sg]) st)
  = (Returned tt,
     World b
       (s ++ [Segmentation
                (SegmentationNode (sgn_Name sg) (ReferenceImageGeometry sg)
                   (Some (S (length s))) (Segments sg));
              SegmentationDisplay]) st).
Proof.
  intros Hd. unfold slicer.CreateDefaultDisplayNodes, slicer.get_node.
  rewrite run_bind, lookup_node_middle, Hd.
  rewrite AddNewNodeByClass_segmentation_display.
  rewrite run_bind, add_node_run. cbn. unfold set_mrmlScene. cbn.
  rewrite <- app_assoc. cbn [app]. rewrite insert_node_middle.
  by rewrite length_app, Nat.add_1_r.
Qed.

Lemma create_segmentation_node_returns a class_names name vol_node v w rows cols :
  shape a = [rows; cols] →
  c_contiguous a = true →
  live w a →
  supported_dtype int8 →
  slicer.lookup_node w vol_node = Some (ScalarVolume v) →
  ∃ b' segs,
    create_segmentation_node_from_numpy_array a class_names name vol_node w
    = (Returned (Some (length (mrmlScene w))),
       World b'
         (mrmlScene w
          ++ [Segmentation
                (SegmentationNode name
                   (if ImageData v is Some _ then vol_node else None)
                   (Some (S (length (mrmlScene w)))) segs);
              SegmentationDisplay])
         (storage_nodes w))
    ∧ buffers w ⊆ b'
    ∧ Forall2 (segment_for class_names (IJKToRASDirections v) rows cols
                 b' (deref w (data a)))
        segs (keys class_names).
Proof.
  intros Hshape Hc [Hdom Hlen] Hint8 Hvol.
  rewrite (size_2d _ _ _ Hshape) in Hlen.
  unfold create_segmentation_node_from_numpy_array.
  rewrite (run_bind_returned _ _ _ _ _ (GetIJKToRASDirections_run _ _ _ Hvol)).
  destruct w as [b s st]. cbn [mrmlScene storage_nodes buffers] in *.
  apply elem_of_dom in Hdom as [els Hels].
  unfold deref in Hlen |- *. cbn [buffers] in Hlen |- *.
  rewrite Hels in Hlen |- *. cbn [default id] in Hlen |- *.
  destruct vol_node as [i|]; [|done]. cbn in Hvol.
  rewrite AddNewNodeByClass_segmentation.
  rewrite (run_bind_returned _ _ _ _ _ (add_node_run _ _ _ _)).
  rewrite (run_bind_returned _ _ _ _ _
             (SetReferenceImageGeometry_run _ _ _ [] _ _ _ Hvol)).
  cbn [sgn_Name ReferenceImageGeometry sgn_DisplayNode Segments].
  rewrite (run_bind_returned _ _ _ _ _
             (CreateDefaultDisplayNodes_segmentation_run b s
                (SegmentationNode name
                   (if ImageData v is Some _ then Some i else None) None [])
                st eq_refl)).
  cbn [sgn_Name ReferenceImageGeometry sgn_DisplayNode Segments].
  destruct (for_each_run a class_names (IJKToRASDirections v) rows cols s
              [SegmentationDisplay] st Hshape Hc Hint8 (keys class_names) b
              (SegmentationNode name
                 (if ImageData v is Some _ then Some i else None)
                 (Some (S (length s))) []) els)
    as (b' & segs & Hrun & Hsub & Hsegs); [done|done| |].
  { apply Forall_forall. intros k Hk. by apply dict_get_is_Some. }
  exists b', segs. split_and!; [|done..].
  rewrite (run_bind_returned _ _ _ _ _ Hrun). reflexivity.
Qed.
Lemma create_image_data_raises a oriented copy w :
  length (shape a) ≠ 2 ∨ ¬ supported_dtype (dtype a) ∨ c_contiguous a = false →
  ∃ e w',
    create_image_data_from_numpy_array a oriented copy w = (Raised e, w')
    ∧ mrmlScene w' = mrmlScene w ∧ storage_nodes w' = storage_nodes w.
Proof.
  intros Hbad.
  destruct (decide (length (shape a) = 2)) as [Hrank|Hrank]; last first.
  { eexists _, w. by rewrite create_image_data_rank_error. }
  destruct (vtk.get_vtk_array_type (dtype a)) as [t|e] eqn:Ht; last first.
  { exists e, w. by rewrite (create_image_data_type_error _ _ _ _ e). }
  destruct (c_contiguous a) eqn:Hc; last first.
  { eexists _, w. by rewrite (create_image_data_contiguity_error _ _ _ _ t). }
  destruct (np.issubdtype (dtype a) (vtk.get_numpy_array_type t)
            || bool_decide (dtype a = vtk.get_numpy_array_type t)) eqn:Hrt.
  - destruct Hbad as [?|[Hns|?]]; [done| |done].
    destruct Hns. by exists t.
  - destruct (create_image_data_roundtrip_error a oriented copy w t)
      as (w' & Hrun & Hs & Hst); [done..|].
    by eexists _, w'.
Qed.

Lemma dict_get_NoDup (d : dict) k v :
  NoDup (keys d) → (k, v) ∈ d → dict_get d k = Some v.
Proof.
  unfold keys, dict_get.
  induction d as [|[k' v'] d IH]; intros Hnd Hin; [by apply elem_of_nil in Hin|].
  apply NoDup_cons in Hnd as [Hk' Hnd]. cbn [list_find].
  apply elem_of_cons in Hin as [Heq|Hin].
  - simplify_eq. cbn. by rewrite decide_True.
  - cbn. rewrite decide_False.
    + specialize (IH Hnd Hin).
      destruct (list_find _ d) as [[i kv]|]; [|done]. by simplify_eq/=.
    + intros ->. apply Hk'. apply list_elem_of_fmap. by exists (k, v).
Qed.

Lemma equal_elements_lookup k els i x :
  np.equal_elements k els !! i = Some x →
  ∃ e, els !! i = Some e ∧ x = if (e =? k)%Z then 1%Z else 0%Z.
Proof.
  unfold np.equal_elements. rewrite list_lookup_fmap.
  destruct (els !! i) as [e|]; [|done]. intros [= <-]. by exists e.
Qed.

Lemma equal_elements_absent k els :
  k ∉ els → np.equal_elements k els = replicate (length els) 0%Z.
Proof.
  unfold np.equal_elements.
  induction els as [|e els IH]; intros Hk; [done|].
  apply not_elem_of_cons in Hk as [Hne Hk]. cbn.
  rewrite IH by done. f_equal.
  destruct (Z.eqb_spec e k); [by subst|done].
Qed.

End image_data.

(** ** Properties of the conversion *)

Section conversion.
Context `{vtk.NumpySupport}.

(** C2. For a C-contiguous 2-D grid of shape (rows, cols) whose dtype is
    supported, [create_image_data_from_numpy_array] returns an image, and
    the image's dimensions are [rows, cols, 1]. *)
Theorem image_dimensions a oriented copy w rows cols :
  shape a = [rows; cols] →
  supported_dtype (dtype a) →
  c_contiguous a = true →
  ∃ img w',
    create_image_data_from_numpy_array a oriented copy w = (Returned img, w')
    ∧ Dimensions img = [rows; cols; 1].
Proof.
  intros Hshape Hsup Hc.
  destruct (create_image_data_returns a oriented copy w rows cols)
    as (t & l & w' & Hrun & _); [done..|].
  by eexists _, w'.
Qed.

(** C8. For a C-contiguous 2-D grid of shape (rows, cols) with a supported
    dtype, the scalars of the returned image are rows*cols tuples of one
    component, and they are the grid's elements in row-major order: tuple
    number i*cols + j is the element [i, j].  This holds with and without
    the copy. *)
Theorem image_scalars a oriented copy w rows cols :
  shape a = [rows; cols] →
  supported_dtype (dtype a) →
  c_contiguous a = true →
  live w a →
  ∃ img w' arr,
    create_image_data_from_numpy_array a oriented copy w = (Returned img, w')
    ∧ Scalars img = Some arr
    ∧ NumberOfComponents arr = 1
    ∧ NumberOfTuples arr = rows * cols
    ∧ length (vtk.GetScalarValues w' img) = rows * cols
    ∧ vtk.GetScalarValues w' img = deref w (data a)
    ∧ ∀ i j, i < rows → j < cols →
        vtk.GetScalarValues w' img !! (i * cols + j) = item w a i j.
Proof.
  intros Hshape Hsup Hc [Hdom Hlen].
  rewrite (size_2d _ _ _ Hshape) in Hlen.
  destruct (create_image_data_returns a oriented copy w rows cols)
    as (t & l & w' & Hrun & _ & _ & _ & Hsub & Hl); [done..|].
  assert (Hvals : vtk.GetScalarValues w' (VtkImageData oriented [rows; cols; 1]
                    (Some (VtkDataArray t 1 (rows * cols) (Some l))) identity3)
                  = deref w (data a)).
  { apply shows_values. exists t, l. cbn. rewrite Hlen. split; [done|].
    destruct (default true copy).
    - destruct Hl as [_ Hl]. rewrite Hl by done.
      by rewrite firstn_all2 by lia.
    - subst l. apply elem_of_dom in Hdom as [els Hels].
      unfold deref. rewrite Hels. cbn. by eapply lookup_weaken. }
  eexists _, w', _. split; [exact Hrun|].
  split_and!; try done.
  - by rewrite Hvals.
  - intros i j Hi Hj. rewrite Hvals. unfold item. rewrite Hshape.
    apply Nat.ltb_lt in Hi, Hj. by rewrite Hi, Hj.
Qed.

(** C3. With the copy option on, which it is when the caller leaves it out,
    overwriting the source grid after the call leaves the values of the
    returned image as they were. *)
Theorem copy_detaches_image a oriented copy w rows cols :
  shape a = [rows; cols] →
  supported_dtype (dtype a) →
  c_contiguous a = true →
  live w a →
  copy = None ∨ copy = Some true →
  ∃ img w',
    create_image_data_from_numpy_array a oriented copy w = (Returned img, w')
    ∧ ∀ els, vtk.GetScalarValues (np.assign a els w') img
             = vtk.GetScalarValues w' img.
Proof.
  intros Hshape Hsup Hc [Hdom Hlen] Hcopy.
  destruct (create_image_data_returns a oriented copy w rows cols)
    as (t & l & w' & Hrun & _ & _ & _ & Hsub & Hl); [done..|].
  assert (default true copy = true) as Hd by (by destruct Hcopy; subst).
  rewrite Hd in Hl. destruct Hl as [Hfresh _].
  eexists _, w'. split; [exact Hrun|].
  intros els. unfold vtk.GetScalarValues, np.assign, deref. cbn.
  rewrite lookup_insert_ne; [done|].
  intros Heq. apply Hfresh. by rewrite <- Heq.
Qed.

(** C4. An array whose number of dimensions is not 2 makes the conversion
    raise a [ValueError] that tells the number of dimensions it got; no
    image is returned and nothing is changed. *)
Theorem rank_not_2_raises a oriented copy w :
  length (shape a) ≠ 2 →
  create_image_data_from_numpy_array a oriented copy w
  = (Raised (ValueError ("2D array was expected; got "
                         +:+ pretty (length (shape a)) +:+ "D array")), w).
Proof. apply create_image_data_rank_error. Qed.

(** C6. A 2-D grid with a supported dtype that is not C-contiguous makes
    the conversion fail the assertion on contiguity; no image is
    returned. *)
Theorem not_contiguous_raises a oriented copy w :
  length (shape a) = 2 →
  supported_dtype (dtype a) →
  c_contiguous a = false →
  create_image_data_from_numpy_array a oriented copy w
  = (Raised (AssertionError contiguity_condition), w).
Proof.
  intros Hrank (t & Ht & _) Hc.
  by apply (create_image_data_contiguity_error _ _ _ _ t).
Qed.

End conversion.

(** ** Properties of the volume node *)

Section volume.
Context `{vtk.NumpySupport}.

(** C7. For a valid grid and direction vectors given by the caller,
    [create_volume_node_from_numpy_array] returns a volume node of the scene
    whose origin is zero, whose spacing is one along each axis, whose
    directions are the caller's, and whose image data is the non-oriented
    image the conversion makes of the grid; a default display node is in the
    scene and referenced by the node, and a default storage node has been
    created and released. *)
Theorem volume_node_state a dirs name w rows cols :
  shape a = [rows; cols] →
  supported_dtype (dtype a) →
  c_contiguous a = true →
  ∃ img w1 ref w' v,
    create_image_data_from_numpy_array a false None w = (Returned img, w1)
    ∧ create_volume_node_from_numpy_array a dirs name w = (Returned ref, w')
    ∧ slicer.lookup_node w' ref = Some (ScalarVolume v)
    ∧ vol_Name v = name
    ∧ Origin v = [0%Q; 0%Q; 0%Q]
    ∧ Spacing v = [1%Q; 1%Q; 1%Q]
    ∧ IJKToRASDirections v = dirs
    ∧ ImageData v = Some img
    ∧ IsOriented img = false
    ∧ buffers w' = buffers w1
    ∧ slicer.lookup_node w' (vol_DisplayNode v) = Some ScalarVolumeDisplay
    ∧ slicer.lookup_node w (vol_DisplayNode v) = None
    ∧ storage_nodes w'
      = storage_nodes w ++ [StorageNode "vtkMRMLVolumeArchetypeStorageNode" 0].
Proof.
  intros Hshape Hsup Hc.
  destruct (create_volume_node_returns a dirs name w rows cols)
    as (img & w1 & Himg & Hrun); [done..|].
  destruct (create_image_data_returns a false None w rows cols)
    as (t & l & w1' & Himg' & _); [done..|].
  rewrite Himg' in Himg. injection Himg as <- <-.
  eexists _, w1', _, _, _. split; [exact Himg'|]. split; [exact Hrun|].
  split.
  { cbn. apply list_lookup_middle. reflexivity. }
  split_and!; try done; cbn.
  - by rewrite cons_middle, app_assoc, list_lookup_middle
      by (rewrite length_app; cbn; lia).
  - apply lookup_ge_None_2. lia.
Qed.

(** C10. When the array fails validation (its rank is not 2, its dtype is
    not supported, or it is not C-contiguous),
    [create_volume_node_from_numpy_array] raises, and the scene and the
    host's detached objects are as they were: no node has been added. *)
Theorem invalid_array_leaves_scene a dirs name w :
  length (shape a) ≠ 2 ∨ ¬ supported_dtype (dtype a) ∨ c_contiguous a = false →
  ∃ e w',
    create_volume_node_from_numpy_array a dirs name w = (Raised e, w')
    ∧ mrmlScene w' = mrmlScene w
    ∧ storage_nodes w' = storage_nodes w.
Proof.
  intros Hbad.
  destruct (create_image_data_raises a false None w Hbad)
    as (e & w' & Hrun & Hs & Hst).
  exists e, w'. split; [|done].
  unfold create_volume_node_from_numpy_array.
  by rewrite (run_bind_raised _ _ _ _ _ Hrun).
Qed.

End volume.

(** ** Properties of the segmentation node *)

Section segmentation.
Context `{vtk.NumpySupport}.

(** C9. The segmentation node gets one segment per key of the mapping, in
    the mapping's order and under the key's name, whether or not the key
    occurs in the grid; each segment's mask is the comparison of the grid
    with the key, and it is all zeros for a key the grid does not
    contain. *)
Theorem one_segment_per_key a class_names name vol_node v w rows cols :
  shape a = [rows; cols] →
  c_contiguous a = true →
  live w a →
  supported_dtype int8 →
  slicer.lookup_node w vol_node = Some (ScalarVolume v) →
  NoDup (keys class_names) →
  ∃ ref w',
    create_segmentation_node_from_numpy_array a class_names name vol_node w
    = (Returned ref, w')
    ∧ is_Some (slicer.lookup_node w' ref)
    ∧ slicer.lookup_node w ref = None
    ∧ Forall2
        (λ seg kv,
           seg_Name seg = kv.2
           ∧ vtk.GetScalarValues w' (BinaryLabelmap seg)
             = np.equal_elements kv.1 (deref w (data a))
           ∧ (kv.1 ∉ deref w (data a) →
              vtk.GetScalarValues w' (BinaryLabelmap seg)
              = replicate (rows * cols) 0%Z))
        (segments_of w' ref) class_names.
Proof.
  intros Hshape Hc Hlive Hint8 Hvol Hnd.
  destruct (create_segmentation_node_returns a class_names name vol_node v w
              rows cols) as (b' & segs & Hrun & Hsub & Hsegs); [done..|].
  destruct Hlive as [_ Hlen]. rewrite (size_2d _ _ _ Hshape) in Hlen.
  eexists _, _. split; [exact Hrun|].
  assert (Hlook : ∀ b sc n t st,
            slicer.lookup_node (World b (sc ++ n :: t) st) (Some (length sc))
            = Some n) by (intros; apply lookup_node_middle).
  split; [by rewrite Hlook|].
  split; [cbn; apply lookup_ge_None_2; lia|].
  unfold segments_of. rewrite Hlook. cbn [Segments].
  unfold keys in Hsegs.
  apply Forall2_same_length_lookup in Hsegs as [Hlen' Hsegs].
  rewrite length_fmap in Hlen'.
  apply Forall2_same_length_lookup. split; [done|].
  intros i seg [k nm] Hseg Hkv.
  destruct (Hsegs i seg k Hseg) as (Hname & _ & _ & _ & Hshows);
    [by rewrite list_lookup_fmap, Hkv|].
  cbn [fst snd].
  rewrite (dict_get_NoDup class_names k nm) in Hname;
    [|done|by eapply list_elem_of_lookup_2].
  assert (Hvals : vtk.GetScalarValues
                    (World b' (mrmlScene w ++
                       [Segmentation
                          (SegmentationNode name
                             (if ImageData v is Some _ then vol_node else None)
                             (Some (S (length (mrmlScene w)))) segs);
                        SegmentationDisplay]) (storage_nodes w))
                    (BinaryLabelmap seg)
                  = np.equal_elements k (deref w (data a)))
    by (by apply shows_values).
  split_and!; [congruence|done|].
  intros Habs. rewrite Hvals, equal_elements_absent by done. by rewrite Hlen.
Qed.

(** C1, amended. When the keys of the mapping are exactly the k distinct
    labels of the grid, the segmentation node has exactly k segments, one
    per label and under the label's name, and a segment's mask is non-zero
    only at the positions where the grid holds the segment's label. *)
Theorem one_segment_per_label a class_names name vol_node v w rows cols :
  shape a = [rows; cols] →
  c_contiguous a = true →
  live w a →
  supported_dtype int8 →
  slicer.lookup_node w vol_node = Some (ScalarVolume v) →
  keys class_names ≡ₚ distinct_labels w a →
  ∃ ref w',
    create_segmentation_node_from_numpy_array a class_names name vol_node w
    = (Returned ref, w')
    ∧ is_Some (slicer.lookup_node w' ref)
    ∧ length (segments_of w' ref) = length (distinct_labels w a)
    ∧ Forall2
        (λ seg kv,
           seg_Name seg = kv.2
           ∧ kv.1 ∈ distinct_labels w a
           ∧ ∀ i x,
               vtk.GetScalarValues w' (BinaryLabelmap seg) !! i = Some x →
               x ≠ 0%Z →
               deref w (data a) !! i = Some kv.1)
        (segments_of w' ref) class_names.
Proof.
  intros Hshape Hc Hlive Hint8 Hvol Hkeys.
  assert (Hnd : NoDup (keys class_names)).
  { rewrite Hkeys. apply NoDup_remove_dups. }
  destruct (create_segmentation_node_returns a class_names name vol_node v w
              rows cols) as (b' & segs & Hrun & Hsub & Hsegs); [done..|].
  eexists _, _. split; [exact Hrun|].
  assert (Hlook : ∀ b sc n t st,
            slicer.lookup_node (World b (sc ++ n :: t) st) (Some (length sc))
            = Some n) by (intros; apply lookup_node_middle).
  split; [by rewrite Hlook|].
  unfold segments_of. rewrite Hlook. cbn [Segments].
  split.
  { rewrite (Forall2_length _ _ _ Hsegs). unfold keys in Hkeys |- *.
    by rewrite Hkeys. }
  unfold keys in Hsegs.
  apply Forall2_same_length_lookup in Hsegs as [Hlen' Hsegs].
  rewrite length_fmap in Hlen'.
  apply Forall2_same_length_lookup. split; [done|].
  intros i seg [k nm] Hseg Hkv.
  destruct (Hsegs i seg k Hseg) as (Hname & _ & _ & _ & Hshows);
    [by rewrite list_lookup_fmap, Hkv|].
  cbn [fst snd].
  assert (Hin : (k, nm) ∈ class_names) by (by eapply list_elem_of_lookup_2).
  rewrite (dict_get_NoDup class_names k nm) in Hname by done.
  split_and!; [congruence| |].
  - rewrite <- Hkeys. apply list_elem_of_fmap. by exists (k, nm).
  - intros j x Hx Hne.
    erewrite shows_values in Hx by exact Hshows.
    apply equal_elements_lookup in Hx as (e & He & ->).
    destruct (Z.eqb_spec e k); [by subst|done].
Qed.

End segmentation.

(** ** The type tables VTK ships *)

Section vtk_tables.
Variables LONG_TYPE_CODE ULONG_TYPE_CODE ID_TYPE_CODE : numpy_type.

Let vtk_tables : vtk.NumpySupport :=
  numpy_support.tables LONG_TYPE_CODE ULONG_TYPE_CODE ID_TYPE_CODE.

(** The dtypes VTK's tables support are the real integer and floating
    types of 8 to 64 bits. *)
Lemma vtk_supported_dtype d :
  d ∈ [uint8; uint16; uint32; uint64; int8; int16; int32; int64;
       float32; float64] →
  supported_dtype (H := vtk_tables) d.
Proof.
  intros Hd. repeat (apply elem_of_cons in Hd as [->|Hd]);
    [eexists; split; reflexivity..|by apply elem_of_nil in Hd].
Qed.

Lemma vtk_maps_dtype d t :
  numpy_support.get_vtk_array_type d = Returned t →
  d = complex64 ∨ d = complex128 ∨ supported_dtype (H := vtk_tables) d.
Proof.
  destruct d; intros Ht; try discriminate Ht; auto;
    right; right; eexists; split; reflexivity.
Qed.

(** The complex dtypes map to VTK's real types, which name [float32] and
    [float64] back: the round-trip assertion stops them. *)
Lemma complex_dtype_fails_roundtrip a oriented copy w :
  length (shape a) = 2 →
  c_contiguous a = true →
  dtype a = complex64 ∨ dtype a = complex128 →
  (create_image_data_from_numpy_array (H := vtk_tables) a oriented copy w).1
  = Raised (AssertionError roundtrip_condition).
Proof.
  intros Hrank Hc Hd.
  assert (∀ d, d = complex64 ∨ d = complex128 →
            ∃ t, vtk.get_vtk_array_type (NumpySupport := vtk_tables) d
                 = Returned t
                 ∧ np.issubdtype d
                     (vtk.get_numpy_array_type (NumpySupport := vtk_tables) t)
                   || bool_decide
                        (d = vtk.get_numpy_array_type
                               (NumpySupport := vtk_tables) t) = false)
    as Hcomplex
    by (intros d [-> | ->]; eexists; split; reflexivity).
  destruct (Hcomplex _ Hd) as (t & Ht & Hrt).
  destruct (create_image_data_roundtrip_error (H := vtk_tables)
              a oriented copy w t) as (w' & Hrun & _); [done..|].
  by rewrite Hrun.
Qed.

(** C5, amended. With VTK's tables, for every 2-D grid whose dtype maps to
    a VTK type code and is not complex, the assertion that the type code
    names the dtype back does not fail. *)
Theorem roundtrip_assertion_holds a oriented copy w t :
  length (shape a) = 2 →
  vtk.get_vtk_array_type (NumpySupport := vtk_tables) (dtype a) = Returned t →
  dtype a ≠ complex64 →
  dtype a ≠ complex128 →
  (create_image_data_from_numpy_array (H := vtk_tables) a oriented copy w).1
  ≠ Raised (AssertionError roundtrip_condition).
Proof.
  intros Hrank Ht Hc64 Hc128.
  destruct (vtk_maps_dtype _ _ Ht) as [?|[?|Hsup]]; [done..|].
  destruct (c_contiguous a) eqn:Hc.
  - destruct (shape a) as [|rows [|cols [|]]] eqn:Hshape; try done.
    destruct (create_image_data_returns (H := vtk_tables)
                a oriented copy w rows cols)
      as (t' & l & w' & Hrun & _); [done..|].
    by rewrite Hrun.
  - by rewrite (create_image_data_contiguity_error (H := vtk_tables)
                  _ _ _ _ t).
Qed.

End vtk_tables.

(** ** The properties at the example data *)

Module at_example.
Import example.

Lemma supported_int32 : supported_dtype (H := numpy_support.lp64) int32.
Proof. exists VTK_INT. split; reflexivity. Qed.

Lemma supported_int8 : supported_dtype (H := numpy_support.lp64) int8.
Proof. exists VTK_CHAR. split; reflexivity. Qed.

Lemma unsupported_bool : ¬ supported_dtype (H := numpy_support.lp64) bool_.
Proof. intros (t & Ht & _). discriminate Ht. Qed.

Lemma live_grid : live w0 grid.
Proof. split; [apply elem_of_dom; by eexists|reflexivity]. Qed.

Lemma live_labels : live w1 labels.
Proof. split; [apply elem_of_dom; by eexists|reflexivity]. Qed.

Lemma image_dimensions_witness :
  (shape grid = [2; 3]
   ∧ supported_dtype (H := numpy_support.lp64) (dtype grid)
   ∧ c_contiguous grid = true)
  ∧ ∃ img w',
      create_image_data_from_numpy_array (H := numpy_support.lp64) grid false None w0
      = (Returned img, w')
      ∧ Dimensions img = [2; 3; 1].
Proof.
  split; [split_and!; [reflexivity|exact supported_int32|reflexivity]|].
  apply (image_dimensions (H := numpy_support.lp64) grid false None w0 2 3);
    [reflexivity|exact supported_int32|reflexivity].
Defined.

Lemma image_scalars_witness :
  (shape grid = [2; 3]
   ∧ supported_dtype (H := numpy_support.lp64) (dtype grid)
   ∧ c_contiguous grid = true
   ∧ live w0 grid)
  ∧ ∃ img w' arr,
      create_image_data_from_numpy_array (H := numpy_support.lp64) grid true (Some false) w0
      = (Returned img, w')
      ∧ Scalars img = Some arr
      ∧ NumberOfComponents arr = 1
      ∧ NumberOfTuples arr = 2 * 3
      ∧ length (vtk.GetScalarValues w' img) = 2 * 3
      ∧ vtk.GetScalarValues w' img = deref w0 (data grid)
      ∧ ∀ i j, i < 2 → j < 3 →
          vtk.GetScalarValues w' img !! (i * 3 + j) = item w0 grid i j.
Proof.
  split;
    [split_and!; [reflexivity|exact supported_int32|reflexivity|exact live_grid]|].
  apply (image_scalars (H := numpy_support.lp64) grid true (Some false) w0 2 3);
    [reflexivity|exact supported_int32|reflexivity|exact live_grid].
Defined.

Lemma copy_detaches_image_witness :
  (shape grid = [2; 3]
   ∧ supported_dtype (H := numpy_support.lp64) (dtype grid)
   ∧ c_contiguous grid = true
   ∧ live w0 grid
   ∧ (@None bool = None ∨ @None bool = Some true))
  ∧ ∃ img w',
      create_image_data_from_numpy_array (H := numpy_support.lp64) grid false None w0
      = (Returned img, w')
      ∧ ∀ els, vtk.GetScalarValues (np.assign grid els w') img
               = vtk.GetScalarValues w' img.
Proof.
  split;
    [split_and!;
       [reflexivity|exact supported_int32|reflexivity|exact live_grid
       |left; reflexivity]|].
  apply (copy_detaches_image (H := numpy_support.lp64) grid false None w0 2 3);
    [reflexivity|exact supported_int32|reflexivity|exact live_grid
    |left; reflexivity].
Defined.

(** Without the copy the image is a view: it shows what the grid holds
    now. *)
Example view_follows_source :
  ∃ img w',
    create_image_data_from_numpy_array (H := numpy_support.lp64) grid false (Some false) w0
    = (Returned img, w')
    ∧ vtk.GetScalarValues w' img = [0; 1; 1; 2; 0; 5]%Z
    ∧ vtk.GetScalarValues (np.assign grid [9; 9; 9; 9; 9; 9]%Z w') img
      = [9; 9; 9; 9; 9; 9]%Z.
Proof. eexists _, _. split_and!; reflexivity. Qed.

Lemma rank_not_2_raises_witness :
  length (shape flat) ≠ 2
  ∧ create_image_data_from_numpy_array (H := numpy_support.lp64) flat false None w0
    = (Raised (ValueError "2D array was expected; got 1D array"), w0).
Proof.
  split; [cbn; lia|].
  apply (rank_not_2_raises (H := numpy_support.lp64) flat false None w0). cbn. lia.
Defined.

Lemma not_contiguous_raises_witness :
  (length (shape transposed) = 2
   ∧ supported_dtype (H := numpy_support.lp64) (dtype transposed)
   ∧ c_contiguous transposed = false)
  ∧ create_image_data_from_numpy_array (H := numpy_support.lp64) transposed false None w0
    = (Raised (AssertionError contiguity_condition), w0).
Proof.
  split; [split_and!; [reflexivity|exact supported_int32|reflexivity]|].
  apply (not_contiguous_raises (H := numpy_support.lp64) transposed false None w0);
    [reflexivity|exact supported_int32|reflexivity].
Defined.

(** C5 fails on the code: a complex grid has a dtype that maps to a VTK
    type code, and the round-trip assertion fails on it. *)
Lemma complex_grid_fails_roundtrip :
  length (shape complex_grid) = 2
  ∧ vtk.get_vtk_array_type (NumpySupport := numpy_support.lp64) (dtype complex_grid)
    = Returned VTK_FLOAT
  ∧ (create_image_data_from_numpy_array (H := numpy_support.lp64)
       complex_grid false None w0).1
    = Raised (AssertionError roundtrip_condition).
Proof. split_and!; reflexivity. Qed.

Lemma roundtrip_assertion_holds_witness :
  (length (shape grid) = 2
   ∧ vtk.get_vtk_array_type (NumpySupport := numpy_support.lp64) (dtype grid) = Returned VTK_INT
   ∧ dtype grid ≠ complex64
   ∧ dtype grid ≠ complex128)
  ∧ (create_image_data_from_numpy_array (H := numpy_support.lp64) grid false None w0).1
    ≠ Raised (AssertionError roundtrip_condition).
Proof.
  split; [split_and!; [reflexivity|reflexivity|discriminate|discriminate]|].
  apply (roundtrip_assertion_holds int64 uint64 int64 grid false None w0 VTK_INT);
    [reflexivity|reflexivity|discriminate|discriminate].
Defined.

Lemma volume_node_state_witness :
  (shape grid = [2; 3]
   ∧ supported_dtype (H := numpy_support.lp64) (dtype grid)
   ∧ c_contiguous grid = true)
  ∧ ∃ img w1 ref w' v,
      create_image_data_from_numpy_array (H := numpy_support.lp64) grid false None w0
      = (Returned img, w1)
      ∧ create_volume_node_from_numpy_array (H := numpy_support.lp64) grid identity3 "vol" w0
        = (Returned ref, w')
      ∧ slicer.lookup_node w' ref = Some (ScalarVolume v)
      ∧ vol_Name v = "vol"
      ∧ Origin v = [0%Q; 0%Q; 0%Q]
      ∧ Spacing v = [1%Q; 1%Q; 1%Q]
      ∧ IJKToRASDirections v = identity3
      ∧ ImageData v = Some img
      ∧ IsOriented img = false
      ∧ buffers w' = buffers w1
      ∧ slicer.lookup_node w' (vol_DisplayNode v) = Some ScalarVolumeDisplay
      ∧ slicer.lookup_node w0 (vol_DisplayNode v) = None
      ∧ storage_nodes w'
        = storage_nodes w0
          ++ [StorageNode "vtkMRMLVolumeArchetypeStorageNode" 0].
Proof.
  split; [split_and!; [reflexivity|exact supported_int32|reflexivity]|].
  apply (volume_node_state (H := numpy_support.lp64) grid identity3 "vol" w0 2 3);
    [reflexivity|exact supported_int32|reflexivity].
Defined.

Lemma invalid_array_leaves_scene_witness :
  (length (shape bool_grid) ≠ 2
   ∨ ¬ supported_dtype (H := numpy_support.lp64) (dtype bool_grid)
   ∨ c_contiguous bool_grid = false)
  ∧ ∃ e w',
      create_volume_node_from_numpy_array (H := numpy_support.lp64)
        bool_grid identity3 "vol" w0
      = (Raised e, w')
      ∧ mrmlScene w' = mrmlScene w0
      ∧ storage_nodes w' = storage_nodes w0.
Proof.
  split; [right; left; exact unsupported_bool|].
  apply (invalid_array_leaves_scene (H := numpy_support.lp64)
           bool_grid identity3 "vol" w0).
  right; left; exact unsupported_bool.
Defined.

Lemma names_NoDup : NoDup (keys names).
Proof.
  unfold keys, names. cbn.
  apply NoDup_cons. split; [|apply NoDup_singleton].
  intros Hin%list_elem_of_singleton. discriminate Hin.
Qed.

Lemma one_segment_per_key_witness :
  (shape labels = [1; 2]
   ∧ c_contiguous labels = true
   ∧ live w1 labels
   ∧ supported_dtype (H := numpy_support.lp64) int8
   ∧ slicer.lookup_node w1 (Some 0) = Some (ScalarVolume volume)
   ∧ NoDup (keys names))
  ∧ ∃ ref w',
      create_segmentation_node_from_numpy_array (H := numpy_support.lp64)
        labels names "seg" (Some 0) w1
      = (Returned ref, w')
      ∧ is_Some (slicer.lookup_node w' ref)
      ∧ slicer.lookup_node w1 ref = None
      ∧ Forall2
          (λ seg kv,
             seg_Name seg = kv.2
             ∧ vtk.GetScalarValues w' (BinaryLabelmap seg)
               = np.equal_elements kv.1 (deref w1 (data labels))
             ∧ (kv.1 ∉ deref w1 (data labels) →
                vtk.GetScalarValues w' (BinaryLabelmap seg)
                = replicate (1 * 2) 0%Z))
          (segments_of w' ref) names.
Proof.
  split;
    [split_and!;
       [reflexivity|reflexivity|exact live_labels|exact supported_int8
       |reflexivity|exact names_NoDup]|].
  apply (one_segment_per_key (H := numpy_support.lp64) labels names "seg" (Some 0) volume w1 1 2);
    [reflexivity|reflexivity|exact live_labels|exact supported_int8
    |reflexivity|exact names_NoDup].
Defined.

(** C1 fails on the code: the grid holds the two labels 0 and 1, the
    mapping names only label 1, and the node gets one segment. *)
Lemma unnamed_label_gets_no_segment :
  shape labels = [1; 2]
  ∧ c_contiguous labels = true
  ∧ deref w1 (data labels) = [0; 1]%Z
  ∧ length (distinct_labels w1 labels) = 2
  ∧ (let '(r, w') :=
       create_segmentation_node_from_numpy_array (H := numpy_support.lp64)
         labels [(1%Z, "lung")] "seg" (Some 0) w1 in
     match r with
     | Returned ref => Some (seg_Name <$> segments_of w' ref)
     | Raised _ => None
     end) = Some ["lung"].
Proof. split_and!; reflexivity. Qed.

Lemma all_names_keys : keys all_names ≡ₚ distinct_labels w1 labels.
Proof. apply perm_swap. Qed.

Lemma one_segment_per_label_witness :
  (shape labels = [1; 2]
   ∧ c_contiguous labels = true
   ∧ live w1 labels
   ∧ supported_dtype (H := numpy_support.lp64) int8
   ∧ slicer.lookup_node w1 (Some 0) = Some (ScalarVolume volume)
   ∧ keys all_names ≡ₚ distinct_labels w1 labels)
  ∧ ∃ ref w',
      create_segmentation_node_from_numpy_array (H := numpy_support.lp64)
        labels all_names "seg" (Some 0) w1
      = (Returned ref, w')
      ∧ is_Some (slicer.lookup_node w' ref)
      ∧ length (segments_of w' ref) = length (distinct_labels w1 labels)
      ∧ Forall2
          (λ seg kv,
             seg_Name seg = kv.2
             ∧ kv.1 ∈ distinct_labels w1 labels
             ∧ ∀ i x,
                 vtk.GetScalarValues w' (BinaryLabelmap seg) !! i = Some x →
                 x ≠ 0%Z →
                 deref w1 (data labels) !! i = Some kv.1)
          (segments_of w' ref) all_names.
Proof.
  split;
    [split_and!;
       [reflexivity|reflexivity|exact live_labels|exact supported_int8
       |reflexivity|exact all_names_keys]|].
  apply (one_segment_per_label (H := numpy_support.lp64)
           labels all_names "seg" (Some 0) volume w1 1 2);
    [reflexivity|reflexivity|exact live_labels|exact supported_int8
    |reflexivity|exact all_names_keys].
Defined.

End at_example.

(** ** Further properties of the conversion *)

Section conversion_more.
Context `{vtk.NumpySupport}.

Ltac run_conversion :=
  cbv beta iota zeta delta
    [mbind M_bind mret M_ret mthrow M_throw lift py_assert alloc read
     vtk.CreateDataArray vtk.SetNumberOfComponents vtk.SetNumberOfTuples
     vtk.SetVoidArray vtk.NewInstance vtk.DeepCopy vtk.new_vtkImageData
     vtk.SetDimensions vtk.SetScalars slicer.new_vtkOrientedImageData
     slicer.SetDirections np.ravel np.len np.equal np.astype
     DataType NumberOfComponents NumberOfTuples VoidPointer
     IsOriented Dimensions Scalars Directions
     shape dtype c_contiguous data].

(** When the round-trip assertion fails, the store has only grown. *)
Lemma create_image_data_roundtrip_error_store a oriented copy w t :
  length (shape a) = 2 →
  vtk.get_vtk_array_type (dtype a) = Returned t →
  c_contiguous a = true →
  np.issubdtype (dtype a) (vtk.get_numpy_array_type t)
  || bool_decide (dtype a = vtk.get_numpy_array_type t) = false →
  buffers w
  ⊆ buffers (create_image_data_from_numpy_array a oriented copy w).2.
Proof.
  intros Hrank Ht Hc Hrt. unfold create_image_data_from_numpy_array.
  destruct (decide _) as [Hd|_]; [done|].
  destruct a as [sh d c la]; simpl in Ht, Hc, Hrt; subst c.
  run_conversion. rewrite Ht. cbv beta iota. rewrite Hrt. cbn.
  apply buffers_alloc_subseteq.
Qed.

Lemma create_image_data_store a oriented copy w :
  buffers w
  ⊆ buffers (create_image_data_from_numpy_array a oriented copy w).2.
Proof.
  destruct (decide (length (shape a) = 2)) as [Hrank|Hrank]; last first.
  { by rewrite create_image_data_rank_error. }
  destruct (vtk.get_vtk_array_type (dtype a)) as [t|e] eqn:Ht; last first.
  { by rewrite (create_image_data_type_error _ _ _ _ e). }
  destruct (c_contiguous a) eqn:Hc; last first.
  { by rewrite (create_image_data_contiguity_error _ _ _ _ t). }
  destruct (np.issubdtype (dtype a) (vtk.get_numpy_array_type t)
            || bool_decide (dtype a = vtk.get_numpy_array_type t)) eqn:Hrt.
  - destruct (shape a) as [|rows [|cols [|]]] eqn:Hshape; try done.
    destruct (create_image_data_returns a oriented copy w rows cols)
      as (t' & l & w'' & Hrun' & _ & _ & _ & Hsub & _);
      [done|by exists t|done|].
    by rewrite Hrun'.
  - by apply (create_image_data_roundtrip_error_store _ _ _ _ t).
Qed.

(** X1. A 2-D array whose dtype VTK has no type code for makes the
    conversion raise the error of [get_vtk_array_type] as it is; this check
    comes before the one on contiguity, and nothing is changed. *)
Theorem dtype_error_propagates a oriented copy w e :
  length (shape a) = 2 →
  vtk.get_vtk_array_type (dtype a) = Raised e →
  create_image_data_from_numpy_array a oriented copy w = (Raised e, w).
Proof. apply create_image_data_type_error. Qed.

(** X2. Without the copy the returned image is a view of the grid: after
    the grid is overwritten, the image shows the new elements. *)
Theorem view_follows_grid a oriented w rows cols :
  shape a = [rows; cols] →
  supported_dtype (dtype a) →
  c_contiguous a = true →
  ∃ img w',
    create_image_data_from_numpy_array a oriented (Some false) w
    = (Returned img, w')
    ∧ ∀ els, vtk.GetScalarValues (np.assign a els w') img
             = take (rows * cols) els.
Proof.
  intros Hshape Hsup Hc.
  destruct (create_image_data_returns a oriented (Some false) w rows cols)
    as (t & l & w' & Hrun & _ & _ & _ & _ & Hl); [done..|].
  cbn in Hl. subst l.
  eexists _, w'. split; [exact Hrun|].
  intros els. unfold vtk.GetScalarValues, np.assign, deref. cbn.
  by rewrite lookup_insert_eq, Nat.mul_1_r.
Qed.

(** X3. Whatever its outcome, the conversion writes to no buffer that was
    there before (the source grid included), and it touches neither the
    scene nor the host's detached objects. *)
Theorem conversion_preserves_world a oriented copy w :
  (∀ l, l ∈ dom (buffers w) →
     deref (create_image_data_from_numpy_array a oriented copy w).2 l
     = deref w l)
  ∧ mrmlScene (create_image_data_from_numpy_array a oriented copy w).2
    = mrmlScene w
  ∧ storage_nodes (create_image_data_from_numpy_array a oriented copy w).2
    = storage_nodes w.
Proof.
  split.
  - intros l Hl. apply deref_subseteq; [apply create_image_data_store|done].
  - destruct (create_image_data_from_numpy_array a oriented copy w)
      as [r w'] eqn:Hrun.
    by apply create_image_data_scene in Hrun.
Qed.

(** X4. The returned image is a [vtkOrientedImageData] exactly when
    [oriented] is set, its directions are the identity, and its scalar
    array has the VTK type code of the grid's dtype. *)
Theorem image_kind_and_type a oriented copy w rows cols :
  shape a = [rows; cols] →
  supported_dtype (dtype a) →
  c_contiguous a = true →
  ∃ img w' arr,
    create_image_data_from_numpy_array a oriented copy w = (Returned img, w')
    ∧ IsOriented img = oriented
    ∧ Directions img = identity3
    ∧ Scalars img = Some arr
    ∧ vtk.get_vtk_array_type (dtype a) = Returned (DataType arr).
Proof.
  intros Hshape Hsup Hc.
  destruct (create_image_data_returns a oriented copy w rows cols)
    as (t & l & w' & Hrun & Ht & _); [done..|].
  eexists _, w', _. split; [exact Hrun|]. by split_and!.
Qed.

End conversion_more.

(** ** Further properties of the volume node *)

Section volume_more.
Context `{vtk.NumpySupport}.

(** X5. For a valid grid the volume function appends exactly two nodes to
    the scene, the volume node and its display node; the nodes that were
    there are as they were, the reference it returns is the volume node's
    and was no node's before, and no buffer that was there is written. *)
Theorem volume_node_frame a dirs name w rows cols :
  shape a = [rows; cols] →
  supported_dtype (dtype a) →
  c_contiguous a = true →
  ∃ w' v,
    create_volume_node_from_numpy_array a dirs name w
    = (Returned (Some (length (mrmlScene w))), w')
    ∧ mrmlScene w' = mrmlScene w ++ [ScalarVolume v; ScalarVolumeDisplay]
    ∧ (∀ i n, mrmlScene w !! i = Some n → mrmlScene w' !! i = Some n)
    ∧ (∀ l, l ∈ dom (buffers w) → deref w' l = deref w l).
Proof.
  intros Hshape Hsup Hc.
  destruct (create_volume_node_returns a dirs name w rows cols)
    as (img & w1 & Himg & Hrun); [done..|].
  eexists _, _. split; [exact Hrun|]. cbn [mrmlScene].
  split; [reflexivity|]. split.
  - intros i n Hi. by apply lookup_app_l_Some.
  - intros l Hl. apply deref_subseteq; [|done]. cbn [buffers].
    pose proof (create_image_data_store a false None w) as Hsub.
    by rewrite Himg in Hsub.
Qed.

(** X6. The image of the volume node holds the grid's elements as they were
    at the call, and keeps them when the grid is overwritten afterwards:
    the volume function converts with the copy. *)
Theorem volume_image_keeps_grid a dirs name w rows cols :
  shape a = [rows; cols] →
  supported_dtype (dtype a) →
  c_contiguous a = true →
  live w a →
  ∃ ref w' v img,
    create_volume_node_from_numpy_array a dirs name w = (Returned ref, w')
    ∧ slicer.lookup_node w' ref = Some (ScalarVolume v)
    ∧ ImageData v = Some img
    ∧ vtk.GetScalarValues w' img = deref w (data a)
    ∧ ∀ els, vtk.GetScalarValues (np.assign a els w') img
             = deref w (data a).
Proof.
  intros Hshape Hsup Hc [Hdom Hlen].
  rewrite (size_2d _ _ _ Hshape) in Hlen.
  destruct (create_volume_node_returns a dirs name w rows cols)
    as (img & w1 & Himg & Hrun); [done..|].
  destruct (create_image_data_returns a false None w rows cols)
    as (t & l & w1' & Himg' & _ & _ & _ & _ & Hfresh & Hl); [done..|].
  rewrite Himg' in Himg. injection Himg as <- <-.
  specialize (Hl Hdom).
  eexists _, _, _, _. split; [exact Hrun|].
  split; [cbn; by apply list_lookup_middle|].
  split; [reflexivity|].
  unfold vtk.GetScalarValues, np.assign, deref. cbn.
  rewrite Nat.mul_1_r. split.
  - rewrite Hl. cbn. by rewrite !firstn_all2 by (rewrite ?length_take; lia).
  - intros els.
    rewrite lookup_insert_ne by (intros Heq; apply Hfresh; by rewrite <- Heq).
    rewrite Hl. cbn. by rewrite !firstn_all2 by (rewrite ?length_take; lia).
Qed.

End volume_more.

(** ** Further properties of the segmentation node *)

Section segmentation_more.
Context `{vtk.NumpySupport}.

(** The statements before the loop: the directions are read, and the
    segmentation node and its display node enter the scene. *)
Lemma segmentation_prelude_run {A} (k : matrix → node_ref → M A)
    name vol_node v w :
  slicer.lookup_node w vol_node = Some (ScalarVolume v) →
  (ijk_to_ras_directions ← slicer.GetIJKToRASDirections vol_node;
   segNode ← slicer.AddNewNodeByClass "vtkMRMLSegmentationNode" name;
   slicer.SetReferenceImageGeometryParameterFromVolumeNode segNode vol_node;;
   slicer.CreateDefaultDisplayNodes segNode;;
   k ijk_to_ras_directions segNode) w
  = k (IJKToRASDirections v) (Some (length (mrmlScene w)))
      (World (buffers w)
         (mrmlScene w
          ++ [Segmentation
                (SegmentationNode name
                   (if ImageData v is Some _ then vol_node else None)
                   (Some (S (length (mrmlScene w)))) []);
              SegmentationDisplay])
         (storage_nodes w)).
Proof.
  intros Hvol.
  rewrite (run_bind_returned _ _ _ _ _ (GetIJKToRASDirections_run _ _ _ Hvol)).
  destruct w as [b s st]. cbn [mrmlScene storage_nodes buffers] in *.
  destruct vol_node as [i|]; [|done]. cbn in Hvol.
  rewrite AddNewNodeByClass_segmentation.
  rewrite (run_bind_returned _ _ _ _ _ (add_node_run _ _ _ _)).
  rewrite (run_bind_returned _ _ _ _ _
             (SetReferenceImageGeometry_run _ _ _ [] _ _ _ Hvol)).
  cbn [sgn_Name ReferenceImageGeometry sgn_DisplayNode Segments].
  by rewrite (run_bind_returned _ _ _ _ _
             (CreateDefaultDisplayNodes_segmentation_run b s
                (SegmentationNode name
                   (if ImageData v is Some _ then Some i else None) None [])
                st eq_refl)).
Qed.

(** X7. When [vol_node] is [None] or a node that is not a volume node, the
    segmentation function raises an [AttributeError] at its first call on
    it, before any node is made: nothing is changed. *)
Theorem segmentation_needs_volume a class_names name vol_node w :
  (∀ v, slicer.lookup_node w vol_node ≠ Some (ScalarVolume v)) →
  create_segmentation_node_from_numpy_array a class_names name vol_node w
  = (Raised AttributeError, w).
Proof.
  intros Hvol. unfold create_segmentation_node_from_numpy_array.
  apply run_bind_raised.
  unfold slicer.GetIJKToRASDirections. apply run_bind_raised.
  unfold slicer.get_volume.
  destruct (slicer.lookup_node w vol_node) as [[v| | |]|]; try done.
  by destruct (Hvol v).
Qed.

(** X9. With an empty mapping the function returns a segmentation node
    without segments, whatever the array is: the array is looked at only
    inside the loop. *)
Theorem empty_mapping_no_segments a name vol_node v w :
  slicer.lookup_node w vol_node = Some (ScalarVolume v) →
  create_segmentation_node_from_numpy_array a [] name vol_node w
  = (Returned (Some (length (mrmlScene w))),
     World (buffers w)
       (mrmlScene w
        ++ [Segmentation
              (SegmentationNode name
                 (if ImageData v is Some _ then vol_node else None)
                 (Some (S (length (mrmlScene w)))) []);
            SegmentationDisplay])
       (storage_nodes w)).
Proof.
  intros Hvol. unfold create_segmentation_node_from_numpy_array.
  by rewrite (segmentation_prelude_run _ _ _ _ _ Hvol).
Qed.

Ltac run_body :=
  cbv beta iota zeta delta
    [mbind M_bind mret M_ret mthrow M_throw alloc read
     np.equal np.astype shape dtype c_contiguous data].

(** X8. When the grid is not 2-D and the mapping is not empty, the function
    raises the conversion's [ValueError] from the first turn of the loop.
    The segmentation node and its display node are in the scene by then,
    and they stay there, the node without segments. *)
Theorem segmentation_rank_error_leaves_node a class_names name vol_node v w :
  length (shape a) ≠ 2 →
  class_names ≠ [] →
  slicer.lookup_node w vol_node = Some (ScalarVolume v) →
  ∃ w',
    create_segmentation_node_from_numpy_array a class_names name vol_node w
    = (Raised (ValueError ("2D array was expected; got "
                           +:+ pretty (length (shape a)) +:+ "D array")), w')
    ∧ mrmlScene w'
      = mrmlScene w
        ++ [Segmentation
              (SegmentationNode name
                 (if ImageData v is Some _ then vol_node else None)
                 (Some (S (length (mrmlScene w)))) []);
            SegmentationDisplay]
    ∧ storage_nodes w' = storage_nodes w.
Proof.
  intros Hrank Hne Hvol.
  destruct class_names as [|[k nm] cn]; [done|].
  unfold create_segmentation_node_from_numpy_array.
  rewrite (segmentation_prelude_run _ _ _ _ _ Hvol).
  cbn [keys fmap list_fmap fst for_each].
  destruct a as [sh d c la]. cbn [shape] in Hrank |- *.
  run_body.
  rewrite create_image_data_rank_error by done.
  eexists. split; [reflexivity|]. done.
Qed.

(** X10. Every segment's labelmap is an oriented image of the grid's
    dimensions [rows, cols, 1] whose directions are those of the volume
    node; there are as many segments as the mapping has entries. *)
Theorem segment_geometry a class_names name vol_node v w rows cols :
  shape a = [rows; cols] →
  c_contiguous a = true →
  live w a →
  supported_dtype int8 →
  slicer.lookup_node w vol_node = Some (ScalarVolume v) →
  ∃ ref w',
    create_segmentation_node_from_numpy_array a class_names name vol_node w
    = (Returned ref, w')
    ∧ length (segments_of w' ref) = length class_names
    ∧ Forall
        (λ seg,
           IsOriented (BinaryLabelmap seg) = true
           ∧ Dimensions (BinaryLabelmap seg) = [rows; cols; 1]
           ∧ Directions (BinaryLabelmap seg) = IJKToRASDirections v)
        (segments_of w' ref).
Proof.
  intros Hshape Hc Hlive Hint8 Hvol.
  destruct (create_segmentation_node_returns a class_names name vol_node v w
              rows cols) as (b' & segs & Hrun & Hsub & Hsegs); [done..|].
  eexists _, _. split; [exact Hrun|].
  unfold segments_of. rewrite lookup_node_middle. cbn [Segments].
  split.
  - rewrite (Forall2_length _ _ _ Hsegs). unfold keys. apply length_fmap.
  - apply Forall_forall. intros seg Hseg.
    apply list_elem_of_lookup in Hseg as [i Hseg].
    destruct (Forall2_lookup_l _ _ _ _ _ Hsegs Hseg)
      as (k & _ & _ & Ho & Hd & Hm & _).
    done.
Qed.

(** X11. The masks are binary, and the masks of two different segments do
    not overlap: no position is non-zero in both. *)
Theorem segment_masks_disjoint a class_names name vol_node v w rows cols :
  shape a = [rows; cols] →
  c_contiguous a = true →
  live w a →
  supported_dtype int8 →
  slicer.lookup_node w vol_node = Some (ScalarVolume v) →
  NoDup (keys class_names) →
  ∃ ref w',
    create_segmentation_node_from_numpy_array a class_names name vol_node w
    = (Returned ref, w')
    ∧ (∀ seg x,
         seg ∈ segments_of w' ref →
         x ∈ vtk.GetScalarValues w' (BinaryLabelmap seg) →
         x = 0%Z ∨ x = 1%Z)
    ∧ (∀ i j seg seg' p x y,
         i ≠ j →
         segments_of w' ref !! i = Some seg →
         segments_of w' ref !! j = Some seg' →
         vtk.GetScalarValues w' (BinaryLabelmap seg) !! p = Some x →
         vtk.GetScalarValues w' (BinaryLabelmap seg') !! p = Some y →
         x = 0%Z ∨ y = 0%Z).
Proof.
  intros Hshape Hc Hlive Hint8 Hvol Hnd.
  destruct (create_segmentation_node_returns a class_names name vol_node v w
              rows cols) as (b' & segs & Hrun & Hsub & Hsegs); [done..|].
  eexists _, _. split; [exact Hrun|].
  unfold segments_of. rewrite lookup_node_middle. cbn [Segments].
  assert (Hmask : ∀ i seg, segs !! i = Some seg →
            ∃ k, keys class_names !! i = Some k
                 ∧ ∀ sc st, vtk.GetScalarValues (World b' sc st)
                              (BinaryLabelmap seg)
                            = np.equal_elements k (deref w (data a))).
  { intros i seg Hseg.
    destruct (Forall2_lookup_l _ _ _ _ _ Hsegs Hseg)
      as (k & Hk & _ & _ & _ & _ & Hshows).
    exists k. split; [done|]. intros sc st. by apply shows_values. }
  split.
  - intros seg x [i Hseg]%list_elem_of_lookup [p Hx]%list_elem_of_lookup.
    destruct (Hmask i seg Hseg) as (k & _ & Hvals).
    rewrite Hvals in Hx.
    apply equal_elements_lookup in Hx as (e & _ & ->).
    destruct (e =? k)%Z; auto.
  - intros i j seg seg' p x y Hij Hseg Hseg' Hx Hy.
    destruct (Hmask i seg Hseg) as (k & Hk & Hvals).
    destruct (Hmask j seg' Hseg') as (k' & Hk' & Hvals').
    rewrite Hvals in Hx. rewrite Hvals' in Hy.
    apply equal_elements_lookup in Hx as (e & He & ->).
    apply equal_elements_lookup in Hy as (e' & He' & ->).
    assert (e' = e) as -> by congruence.
    destruct (Z.eqb_spec e k) as [->|]; [|by left].
    destruct (Z.eqb_spec k k') as [->|]; [|by right].
    destruct Hij. by eapply NoDup_lookup.
Qed.

(** X14. For a valid grid the segmentation function appends exactly two
    nodes to the scene, the segmentation node (under the given name) and
    its display node; the nodes that were there, the host's detached
    objects and the buffers that were there are as they were. *)
Theorem segmentation_node_frame a class_names name vol_node v w rows cols :
  shape a = [rows; cols] →
  c_contiguous a = true →
  live w a →
  supported_dtype int8 →
  slicer.lookup_node w vol_node = Some (ScalarVolume v) →
  ∃ w' sg,
    create_segmentation_node_from_numpy_array a class_names name vol_node w
    = (Returned (Some (length (mrmlScene w))), w')
    ∧ mrmlScene w' = mrmlScene w ++ [Segmentation sg; SegmentationDisplay]
    ∧ sgn_Name sg = name
    ∧ sgn_DisplayNode sg = Some (S (length (mrmlScene w)))
    ∧ storage_nodes w' = storage_nodes w
    ∧ (∀ l, l ∈ dom (buffers w) → deref w' l = deref w l).
Proof.
  intros Hshape Hc Hlive Hint8 Hvol.
  destruct (create_segmentation_node_returns a class_names name vol_node v w
              rows cols) as (b' & segs & Hrun & Hsub & Hsegs); [done..|].
  eexists _, _. split; [exact Hrun|]. split_and!; try done.
  intros l Hl. by apply deref_subseteq.
Qed.

End segmentation_more.

(** ** The masks are copies *)

Section mask_buffers.
Context `{vtk.NumpySupport}.
Variables (a : ndarray) (class_names : dict) (m : matrix) (rows cols : nat).
Variables (s t : list mrml_node) (st : list vtkMRMLStorageNode).
Hypothesis Hshape : shape a = [rows; cols].
Hypothesis Hc : c_contiguous a = true.
Hypothesis Hint8 : supported_dtype int8.

Let loop_body : Z → M unit := λ class_label,
  is_label ← np.equal a class_label;
  binary_labelmap_array ← np.astype is_label int8;
  orientedImageData ←
    create_image_data_from_numpy_array binary_labelmap_array true None;
  orientedImageData ← slicer.SetDirections orientedImageData m;
  name ← getitem class_names class_label;
  slicer.AddSegmentFromBinaryLabelmapRepresentation
    (Some (length s)) orientedImageData name.

Ltac run_loop_body :=
  cbv beta iota zeta delta
    [mbind M_bind mret M_ret mthrow M_throw alloc read
     np.equal np.astype slicer.SetDirections
     slicer.AddSegmentFromBinaryLabelmapRepresentation
     slicer.get_segmentation slicer.put_node set_mrmlScene
     IsOriented Dimensions Scalars Directions
     sgn_Name ReferenceImageGeometry sgn_DisplayNode Segments
     buffers mrmlScene storage_nodes
     shape dtype c_contiguous data].

(** The buffer a segment's labelmap reads is one the turn of the loop has
    allocated; it holds the comparison of the grid with the key. *)
Lemma loop_body_allocates k name b sg els :
  b !! data a = Some els →
  length els = rows * cols →
  dict_get class_names k = Some name →
  ∃ b' img ty l,
    loop_body k (World b (s ++ Segmentation sg :: t) st)
    = (Returned tt,
       World b'
         (s ++ Segmentation
                 (SegmentationNode (sgn_Name sg) (ReferenceImageGeometry sg)
                    (sgn_DisplayNode sg) (Segments sg ++ [Segment name img]))
            :: t) st)
    ∧ b ⊆ b'
    ∧ Scalars img = Some (VtkDataArray ty 1 (rows * cols) (Some l))
    ∧ (l ∉ dom b)
    ∧ b' !! l = Some (np.equal_elements k els).
Proof using Hshape Hc Hint8.
  intros Hels Hlen Hname. unfold loop_body.
  destruct a as [sh d c la]; simpl in Hshape, Hc, Hels; subst sh c.
  cbv beta iota zeta delta
    [mbind M_bind mret M_ret alloc read np.equal np.astype
     shape dtype c_contiguous data].
  unfold deref. cbn [buffers set_buffers mrmlScene storage_nodes].
  rewrite Hels. cbn [default]. rewrite lookup_insert_eq. cbn [default id].
  rewrite cast_int8_equal.
  set (l1 := fresh (dom b)). set (b1 := <[l1 := _]> b).
  set (l2 := fresh (dom b1)).
  set (w2 := set_buffers _ (set_buffers _ _)).
  assert (Hsub1 : b ⊆ b1) by (apply insert_subseteq, not_elem_of_dom, is_fresh).
  assert (Hsub2 : b1 ⊆ buffers w2)
    by (apply insert_subseteq, not_elem_of_dom, is_fresh).
  assert (Hl2 : buffers w2 !! l2 = Some (np.equal_elements k els))
    by apply lookup_insert_eq.
  destruct (create_image_data_returns (Ndarray [rows; cols] int8 true l2)
              true None w2 rows cols)
    as (ty & l & w3 & Hrun & _ & Hs & Hst & Hsub3 & Hfresh & Hval); [done..|].
  rewrite Hrun. unfold getitem. rewrite Hname.
  destruct w3 as [b3 s3 st3]. cbn in Hs, Hst, Hsub3, Hval, Hfresh.
  subst s3 st3.
  run_loop_body. rewrite lookup_node_middle, insert_node_middle.
  eexists b3, _, ty, l. split; [reflexivity|]. split_and!.
  - etrans; [exact Hsub1|]. etrans; [exact Hsub2|]. exact Hsub3.
  - reflexivity.
  - intros Hin. apply Hfresh.
    eapply subseteq_dom; [|exact Hin]. by etrans.
  - rewrite Hval by (apply elem_of_dom; eauto).
    unfold deref. rewrite Hl2. cbn.
    by rewrite firstn_all2 by (rewrite length_equal_elements; lia).
Qed.

Lemma for_each_allocates ks : ∀ b sg els,
  b !! data a = Some els →
  length els = rows * cols →
  Forall (λ k, is_Some (dict_get class_names k)) ks →
  ∃ b' segs,
    for_each ks loop_body (World b (s ++ Segmentation sg :: t) st)
    = (Returned tt,
       World b'
         (s ++ Segmentation
                 (SegmentationNode (sgn_Name sg) (ReferenceImageGeometry sg)
                    (sgn_DisplayNode sg) (Segments sg ++ segs))
            :: t) st)
    ∧ b ⊆ b'
    ∧ Forall2
        (λ seg k, ∃ ty l,
           Scalars (BinaryLabelmap seg)
           = Some (VtkDataArray ty 1 (rows * cols) (Some l))
           ∧ l ≠ data a
           ∧ b' !! l = Some (np.equal_elements k els))
        segs ks.
Proof using Hshape Hc Hint8.
  induction ks as [|k ks IH]; intros b sg els Hels Hlen Hks.
  - exists b, []. rewrite app_nil_r. destruct sg. by split_and!.
  - apply Forall_cons in Hks as [[name Hname] Hks].
    destruct (loop_body_allocates k name b sg els Hels Hlen Hname)
      as (b1 & img & ty & l & Hrun & Hsub1 & Hsc & Hfresh & Hl).
    destruct (IH b1
                (SegmentationNode (sgn_Name sg) (ReferenceImageGeometry sg)
                   (sgn_DisplayNode sg) (Segments sg ++ [Segment name img]))
                els)
      as (b' & segs & Hrun' & Hsub' & Hsegs);
      [by eapply lookup_weaken|done|done|].
    exists b', (Segment name img :: segs).
    split_and!.
    + cbn [for_each]. rewrite (run_bind_returned _ _ _ _ _ Hrun).
      rewrite Hrun'. cbn. by rewrite <- app_assoc.
    + by etrans.
    + constructor; [|done].
      exists ty, l. split_and!; [done| |by eapply lookup_weaken].
      intros ->. apply Hfresh. apply elem_of_dom. eauto.
Qed.

End mask_buffers.

Section segmentation_composed.
Context `{vtk.NumpySupport}.

(** X12. Overwriting the grid after the call changes no segment's mask: each
    mask stays the comparison of the grid, as it was at the call, with the
    segment's key. *)
Theorem segment_masks_keep_grid a class_names name vol_node v w rows cols :
  shape a = [rows; cols] →
  c_contiguous a = true →
  live w a →
  supported_dtype int8 →
  slicer.lookup_node w vol_node = Some (ScalarVolume v) →
  ∃ ref w',
    create_segmentation_node_from_numpy_array a class_names name vol_node w
    = (Returned ref, w')
    ∧ Forall2
        (λ seg kv, ∀ els,
           vtk.GetScalarValues (np.assign a els w') (BinaryLabelmap seg)
           = np.equal_elements kv.1 (deref w (data a)))
        (segments_of w' ref) class_names.
Proof.
  intros Hshape Hc [Hdom Hlen] Hint8 Hvol.
  rewrite (size_2d _ _ _ Hshape) in Hlen.
  apply elem_of_dom in Hdom as [els0 Hels].
  assert (Hderef : deref w (data a) = els0) by (unfold deref; by rewrite Hels).
  rewrite Hderef in Hlen |- *.
  unfold create_segmentation_node_from_numpy_array.
  rewrite (segmentation_prelude_run _ _ _ _ _ Hvol).
  destruct (for_each_allocates a class_names (IJKToRASDirections v) rows cols
              (mrmlScene w) [SegmentationDisplay] (storage_nodes w)
              Hshape Hc Hint8 (keys class_names) (buffers w)
              (SegmentationNode name
                 (if ImageData v is Some _ then vol_node else None)
                 (Some (S (length (mrmlScene w)))) []) els0)
    as (b' & segs & Hrun & Hsub & Hsegs); [done|done| |].
  { apply Forall_forall. intros k Hk. by apply dict_get_is_Some. }
  rewrite (run_bind_returned _ _ _ _ _ Hrun).
  eexists _, _. split; [reflexivity|].
  unfold segments_of. rewrite lookup_node_middle. cbn [Segments app].
  unfold keys in Hsegs.
  apply Forall2_same_length_lookup in Hsegs as [Hlen' Hsegs].
  rewrite length_fmap in Hlen'.
  apply Forall2_same_length_lookup. split; [done|].
  intros i seg [k nm] Hseg Hkv els.
  destruct (Hsegs i seg k Hseg) as (ty & l & Hsc & Hne & Hl);
    [by rewrite list_lookup_fmap, Hkv|].
  cbn [fst].
  unfold vtk.GetScalarValues, np.assign, deref. rewrite Hsc. cbn.
  rewrite lookup_insert_ne by done. cbn in Hl. rewrite Hl. cbn.
  by rewrite Nat.mul_1_r,
    firstn_all2 by (rewrite length_equal_elements; lia).
Qed.

(** X13. A caller that makes a volume node of a grid and then a
    segmentation node of the same grid, handing over the volume node it got:
    both calls return, the segmentation node refers to that volume node for
    its geometry, and every segment's labelmap has the directions the
    caller gave to the volume node, the grid's dimensions, and as mask the
    comparison of the grid with the segment's key. *)
Theorem volume_then_segmentation a dirs vname class_names sname w rows cols :
  shape a = [rows; cols] →
  supported_dtype (dtype a) →
  c_contiguous a = true →
  live w a →
  supported_dtype int8 →
  ∃ ref w' sg vol,
    (volumeNode ← create_volume_node_from_numpy_array a dirs vname;
     create_segmentation_node_from_numpy_array a class_names sname volumeNode)
      w
    = (Returned ref, w')
    ∧ slicer.lookup_node w' ref = Some (Segmentation sg)
    ∧ slicer.lookup_node w' (ReferenceImageGeometry sg)
      = Some (ScalarVolume vol)
    ∧ vol_Name vol = vname
    ∧ IJKToRASDirections vol = dirs
    ∧ Forall2
        (λ seg kv,
           Directions (BinaryLabelmap seg) = dirs
           ∧ Dimensions (BinaryLabelmap seg) = [rows; cols; 1]
           ∧ vtk.GetScalarValues w' (BinaryLabelmap seg)
             = np.equal_elements kv.1 (deref w (data a)))
        (Segments sg) class_names.
Proof.
  intros Hshape Hsup Hc Hlive Hint8.
  destruct (create_volume_node_returns a dirs vname w rows cols)
    as (img & w1 & Himg & Hrun); [done..|].
  rewrite (run_bind_returned _ _ _ _ _ Hrun).
  pose proof (create_image_data_store a false None w) as Hsub.
  rewrite Himg in Hsub. cbn [snd] in Hsub.
  set (vol := VolumeNode vname [0%Q; 0%Q; 0%Q] [1%Q; 1%Q; 1%Q] dirs
                (Some img) (Some (S (length (mrmlScene w))))) in *.
  set (w2 := World (buffers w1) (mrmlScene w ++ [ScalarVolume vol;
                                                  ScalarVolumeDisplay]) _).
  assert (Hvol : slicer.lookup_node w2 (Some (length (mrmlScene w)))
                 = Some (ScalarVolume vol)) by apply lookup_node_middle.
  assert (Hlive2 : live w2 a).
  { destruct Hlive as [Hdom Hlen]. split.
    - by eapply subseteq_dom.
    - by rewrite (deref_subseteq w w2). }
  assert (Hderef : deref w2 (data a) = deref w (data a))
    by (destruct Hlive; by apply deref_subseteq).
  destruct (create_segmentation_node_returns a class_names sname
              (Some (length (mrmlScene w))) vol w2 rows cols)
    as (b' & segs & Hrun' & Hsub' & Hsegs); [done..|].
  rewrite Hderef in Hsegs.
  eexists _, _, _, vol. split; [exact Hrun'|].
  split; [apply lookup_node_middle|].
  cbn [ReferenceImageGeometry ImageData vol Segments].
  split.
  { cbn. apply lookup_app_l_Some. by apply list_lookup_middle. }
  split; [done|]. split; [done|].
  unfold keys in Hsegs.
  apply Forall2_same_length_lookup in Hsegs as [Hlen' Hsegs].
  rewrite length_fmap in Hlen'.
  apply Forall2_same_length_lookup. split; [done|].
  intros i seg [k nm] Hseg Hkv.
  destruct (Hsegs i seg k Hseg) as (_ & _ & Hd & Hm & Hshows);
    [by rewrite list_lookup_fmap, Hkv|].
  split_and!; [done..|]. by apply shows_values.
Qed.

End segmentation_composed.

(** ** The further properties at the example data *)

Module at_example_more.
Import example.

Lemma int32_supported : supported_dtype (H := numpy_support.lp64) int32.
Proof. exists VTK_INT. split; reflexivity. Qed.

Lemma int8_supported : supported_dtype (H := numpy_support.lp64) int8.
Proof. exists VTK_CHAR. split; reflexivity. Qed.

Lemma grid_live : live w0 grid.
Proof. split; [apply elem_of_dom; by eexists|reflexivity]. Qed.

Lemma labels_live : live w1 labels.
Proof. split; [apply elem_of_dom; by eexists|reflexivity]. Qed.

Lemma names_keys_NoDup : NoDup (keys names).
Proof.
  unfold keys, names. cbn.
  apply NoDup_cons. split; [|apply NoDup_singleton].
  intros Hin%list_elem_of_singleton. discriminate Hin.
Qed.

Lemma display_is_no_volume v :
  slicer.lookup_node w1 (Some 1) ≠ Some (ScalarVolume v).
Proof. discriminate. Qed.

Lemma dtype_error_propagates_witness :
  (length (shape bool_grid) = 2
   ∧ vtk.get_vtk_array_type (NumpySupport := numpy_support.lp64)
       (dtype bool_grid)
     = Raised (TypeError "Could not find a suitable VTK type for bool"))
  ∧ create_image_data_from_numpy_array (H := numpy_support.lp64)
      bool_grid false None w0
    = (Raised (TypeError "Could not find a suitable VTK type for bool"), w0).
Proof.
  split; [split; reflexivity|].
  apply (dtype_error_propagates (H := numpy_support.lp64)
           bool_grid false None w0); reflexivity.
Defined.

Lemma view_follows_grid_witness :
  (shape grid = [2; 3]
   ∧ supported_dtype (H := numpy_support.lp64) (dtype grid)
   ∧ c_contiguous grid = true)
  ∧ ∃ img w',
      create_image_data_from_numpy_array (H := numpy_support.lp64)
        grid false (Some false) w0
      = (Returned img, w')
      ∧ ∀ els, vtk.GetScalarValues (np.assign grid els w') img
               = take (2 * 3) els.
Proof.
  split; [split_and!; [reflexivity|exact int32_supported|reflexivity]|].
  apply (view_follows_grid (H := numpy_support.lp64) grid false w0 2 3);
    [reflexivity|exact int32_supported|reflexivity].
Defined.

Lemma image_kind_and_type_witness :
  (shape grid = [2; 3]
   ∧ supported_dtype (H := numpy_support.lp64) (dtype grid)
   ∧ c_contiguous grid = true)
  ∧ ∃ img w' arr,
      create_image_data_from_numpy_array (H := numpy_support.lp64)
        grid true None w0
      = (Returned img, w')
      ∧ IsOriented img = true
      ∧ Directions img = identity3
      ∧ Scalars img = Some arr
      ∧ vtk.get_vtk_array_type (NumpySupport := numpy_support.lp64)
          (dtype grid)
        = Returned (DataType arr).
Proof.
  split; [split_and!; [reflexivity|exact int32_supported|reflexivity]|].
  apply (image_kind_and_type (H := numpy_support.lp64) grid true None w0 2 3);
    [reflexivity|exact int32_supported|reflexivity].
Defined.

Lemma volume_node_frame_witness :
  (shape labels = [1; 2]
   ∧ supported_dtype (H := numpy_support.lp64) (dtype labels)
   ∧ c_contiguous labels = true)
  ∧ ∃ w' v,
      create_volume_node_from_numpy_array (H := numpy_support.lp64)
        labels identity3 "second" w1
      = (Returned (Some (length (mrmlScene w1))), w')
      ∧ mrmlScene w' = mrmlScene w1 ++ [ScalarVolume v; ScalarVolumeDisplay]
      ∧ (∀ i n, mrmlScene w1 !! i = Some n → mrmlScene w' !! i = Some n)
      ∧ (∀ l, l ∈ dom (buffers w1) → deref w' l = deref w1 l).
Proof.
  split; [split_and!; [reflexivity|exact int32_supported|reflexivity]|].
  apply (volume_node_frame (H := numpy_support.lp64)
           labels identity3 "second" w1 1 2);
    [reflexivity|exact int32_supported|reflexivity].
Defined.

Lemma volume_image_keeps_grid_witness :
  (shape grid = [2; 3]
   ∧ supported_dtype (H := numpy_support.lp64) (dtype grid)
   ∧ c_contiguous grid = true
   ∧ live w0 grid)
  ∧ ∃ ref w' v img,
      create_volume_node_from_numpy_array (H := numpy_support.lp64)
        grid identity3 "vol" w0
      = (Returned ref, w')
      ∧ slicer.lookup_node w' ref = Some (ScalarVolume v)
      ∧ ImageData v = Some img
      ∧ vtk.GetScalarValues w' img = deref w0 (data grid)
      ∧ ∀ els, vtk.GetScalarValues (np.assign grid els w') img
               = deref w0 (data grid).
Proof.
  split;
    [split_and!;
       [reflexivity|exact int32_supported|reflexivity|exact grid_live]|].
  apply (volume_image_keeps_grid (H := numpy_support.lp64)
           grid identity3 "vol" w0 2 3);
    [reflexivity|exact int32_supported|reflexivity|exact grid_live].
Defined.

Lemma segmentation_needs_volume_witness :
  (∀ v, slicer.lookup_node w1 (Some 1) ≠ Some (ScalarVolume v))
  ∧ create_segmentation_node_from_numpy_array (H := numpy_support.lp64)
      labels names "seg" (Some 1) w1
    = (Raised AttributeError, w1).
Proof.
  split; [exact display_is_no_volume|].
  apply (segmentation_needs_volume (H := numpy_support.lp64)
           labels names "seg" (Some 1) w1).
  exact display_is_no_volume.
Defined.

Lemma segmentation_rank_error_leaves_node_witness :
  (length (shape flat) ≠ 2
   ∧ names ≠ []
   ∧ slicer.lookup_node w1 (Some 0) = Some (ScalarVolume volume))
  ∧ ∃ w',
      create_segmentation_node_from_numpy_array (H := numpy_support.lp64)
        flat names "seg" (Some 0) w1
      = (Raised (ValueError "2D array was expected; got 1D array"), w')
      ∧ mrmlScene w'
        = mrmlScene w1
          ++ [Segmentation (SegmentationNode "seg" (Some 0) (Some 3) []);
              SegmentationDisplay]
      ∧ storage_nodes w' = storage_nodes w1.
Proof.
  split; [split_and!; [cbn; lia|discriminate|reflexivity]|].
  apply (segmentation_rank_error_leaves_node (H := numpy_support.lp64)
           flat names "seg" (Some 0) volume w1);
    [cbn; lia|discriminate|reflexivity].
Defined.

Lemma empty_mapping_no_segments_witness :
  slicer.lookup_node w1 (Some 0) = Some (ScalarVolume volume)
  ∧ create_segmentation_node_from_numpy_array (H := numpy_support.lp64)
      flat [] "seg" (Some 0) w1
    = (Returned (Some 2),
       World (buffers w1)
         (mrmlScene w1
          ++ [Segmentation (SegmentationNode "seg" (Some 0) (Some 3) []);
              SegmentationDisplay])
         (storage_nodes w1)).
Proof.
  split; [reflexivity|].
  apply (empty_mapping_no_segments (H := numpy_support.lp64)
           flat "seg" (Some 0) volume w1).
  reflexivity.
Defined.

Lemma segment_geometry_witness :
  (shape labels = [1; 2]
   ∧ c_contiguous labels = true
   ∧ live w1 labels
   ∧ supported_dtype (H := numpy_support.lp64) int8
   ∧ slicer.lookup_node w1 (Some 0) = Some (ScalarVolume volume))
  ∧ ∃ ref w',
      create_segmentation_node_from_numpy_array (H := numpy_support.lp64)
        labels names "seg" (Some 0) w1
      = (Returned ref, w')
      ∧ length (segments_of w' ref) = length names
      ∧ Forall
          (λ seg,
             IsOriented (BinaryLabelmap seg) = true
             ∧ Dimensions (BinaryLabelmap seg) = [1; 2; 1]
             ∧ Directions (BinaryLabelmap seg) = IJKToRASDirections volume)
          (segments_of w' ref).
Proof.
  split;
    [split_and!;
       [reflexivity|reflexivity|exact labels_live|exact int8_supported
       |reflexivity]|].
  apply (segment_geometry (H := numpy_support.lp64)
           labels names "seg" (Some 0) volume w1 1 2);
    [reflexivity|reflexivity|exact labels_live|exact int8_supported
    |reflexivity].
Defined.

Lemma segment_masks_disjoint_witness :
  (shape labels = [1; 2]
   ∧ c_contiguous labels = true
   ∧ live w1 labels
   ∧ supported_dtype (H := numpy_support.lp64) int8
   ∧ slicer.lookup_node w1 (Some 0) = Some (ScalarVolume volume)
   ∧ NoDup (keys all_names))
  ∧ ∃ ref w',
      create_segmentation_node_from_numpy_array (H := numpy_support.lp64)
        labels all_names "seg" (Some 0) w1
      = (Returned ref, w')
      ∧ (∀ seg x,
           seg ∈ segments_of w' ref →
           x ∈ vtk.GetScalarValues w' (BinaryLabelmap seg) →
           x = 0%Z ∨ x = 1%Z)
      ∧ (∀ i j seg seg' p x y,
           i ≠ j →
           segments_of w' ref !! i = Some seg →
           segments_of w' ref !! j = Some seg' →
           vtk.GetScalarValues w' (BinaryLabelmap seg) !! p = Some x →
           vtk.GetScalarValues w' (BinaryLabelmap seg') !! p = Some y →
           x = 0%Z ∨ y = 0%Z).
Proof.
  assert (Hnd : NoDup (keys all_names)).
  { unfold keys, all_names. cbn.
    apply NoDup_cons. split; [|apply NoDup_singleton].
    intros Hin%list_elem_of_singleton. discriminate Hin. }
  split;
    [split_and!;
       [reflexivity|reflexivity|exact labels_live|exact int8_supported
       |reflexivity|exact Hnd]|].
  apply (segment_masks_disjoint (H := numpy_support.lp64)
           labels all_names "seg" (Some 0) volume w1 1 2);
    [reflexivity|reflexivity|exact labels_live|exact int8_supported
    |reflexivity|exact Hnd].
Defined.

Lemma segmentation_node_frame_witness :
  (shape labels = [1; 2]
   ∧ c_contiguous labels = true
   ∧ live w1 labels
   ∧ supported_dtype (H := numpy_support.lp64) int8
   ∧ slicer.lookup_node w1 (Some 0) = Some (ScalarVolume volume))
  ∧ ∃ w' sg,
      create_segmentation_node_from_numpy_array (H := numpy_support.lp64)
        labels names "seg" (Some 0) w1
      = (Returned (Some (length (mrmlScene w1))), w')
      ∧ mrmlScene w' = mrmlScene w1 ++ [Segmentation sg; SegmentationDisplay]
      ∧ sgn_Name sg = "seg"
      ∧ sgn_DisplayNode sg = Some (S (length (mrmlScene w1)))
      ∧ storage_nodes w' = storage_nodes w1
      ∧ (∀ l, l ∈ dom (buffers w1) → deref w' l = deref w1 l).
Proof.
  split;
    [split_and!;
       [reflexivity|reflexivity|exact labels_live|exact int8_supported
       |reflexivity]|].
  apply (segmentation_node_frame (H := numpy_support.lp64)
           labels names "seg" (Some 0) volume w1 1 2);
    [reflexivity|reflexivity|exact labels_live|exact int8_supported
    |reflexivity].
Defined.

Lemma segment_masks_keep_grid_witness :
  (shape labels = [1; 2]
   ∧ c_contiguous labels = true
   ∧ live w1 labels
   ∧ supported_dtype (H := numpy_support.lp64) int8
   ∧ slicer.lookup_node w1 (Some 0) = Some (ScalarVolume volume))
  ∧ ∃ ref w',
      create_segmentation_node_from_numpy_array (H := numpy_support.lp64)
        labels names "seg" (Some 0) w1
      = (Returned ref, w')
      ∧ Forall2
          (λ seg kv, ∀ els,
             vtk.GetScalarValues (np.assign labels els w') (BinaryLabelmap seg)
             = np.equal_elements kv.1 (deref w1 (data labels)))
          (segments_of w' ref) names.
Proof.
  split;
    [split_and!;
       [reflexivity|reflexivity|exact labels_live|exact int8_supported
       |reflexivity]|].
  apply (segment_masks_keep_grid (H := numpy_support.lp64)
           labels names "seg" (Some 0) volume w1 1 2);
    [reflexivity|reflexivity|exact labels_live|exact int8_supported
    |reflexivity].
Defined.

Lemma volume_then_segmentation_witness :
  (shape grid = [2; 3]
   ∧ supported_dtype (H := numpy_support.lp64) (dtype grid)
   ∧ c_contiguous grid = true
   ∧ live w0 grid
   ∧ supported_dtype (H := numpy_support.lp64) int8)
  ∧ ∃ ref w' sg vol,
      (volumeNode ← create_volume_node_from_numpy_array
                      (H := numpy_support.lp64) grid identity3 "vol";
       create_segmentation_node_from_numpy_array (H := numpy_support.lp64)
         grid names "seg" volumeNode) w0
      = (Returned ref, w')
      ∧ slicer.lookup_node w' ref = Some (Segmentation sg)
      ∧ slicer.lookup_node w' (ReferenceImageGeometry sg)
        = Some (ScalarVolume vol)
      ∧ vol_Name vol = "vol"
      ∧ IJKToRASDirections vol = identity3
      ∧ Forall2
          (λ seg kv,
             Directions (BinaryLabelmap seg) = identity3
             ∧ Dimensions (BinaryLabelmap seg) = [2; 3; 1]
             ∧ vtk.GetScalarValues w' (BinaryLabelmap seg)
               = np.equal_elements kv.1 (deref w0 (data grid)))
          (Segments sg) names.
Proof.
  split;
    [split_and!;
       [reflexivity|exact int32_supported|reflexivity|exact grid_live
       |exact int8_supported]|].
  apply (volume_then_segmentation (H := numpy_support.lp64)
           grid identity3 "vol" names "seg" w0 2 3);
    [reflexivity|exact int32_supported|reflexivity|exact grid_live
    |exact int8_supported].
Defined.

End at_example_more.
